(** * The FusionAuth webhook receiver ([fusionauth/assets/webhook-handler.ts])

    A shallow embedding of the signature verifier, the event handlers, the
    event router and the Express route of [webhook-handler.ts], and the
    properties of the receiver stated in the specification. *)

From Stdlib Require Import String Ascii List NArith ZArith Bool Lia.
From Stdlib.Strings Require Import Byte.
From Stdlib.Floats Require Import PrimFloat.
Import ListNotations.

Local Open Scope N_scope.

(** ** Bytes and JavaScript strings *)

(** A [Buffer] is a sequence of bytes. *)
Definition buffer := list byte.

(** A JavaScript string is a sequence of UTF-16 code units (16-bit values). *)
Definition jsstring := list N.

(** The string written as an ASCII literal in the source. *)
Definition js (s : string) : jsstring :=
  map (fun c => N_of_ascii c) (list_ascii_of_string s).

Fixpoint str_eqb (a b : jsstring) : bool :=
  match a, b with
  | [], [] => true
  | x :: a', y :: b' => (x =? y) && str_eqb a' b'
  | _, _ => false
  end.

Definition byte_of_N (n : N) : byte :=
  match Byte.of_N (n mod 256) with
  | Some b => b
  | None => x00
  end.

Module Utf8.

Definition is_high_surrogate (u : N) : bool := (0xD800 <=? u) && (u <=? 0xDBFF).
Definition is_low_surrogate (u : N) : bool := (0xDC00 <=? u) && (u <=? 0xDFFF).

(** The UTF-8 bytes of one code point. *)
Definition encode_code_point (c : N) : buffer :=
  if c <? 0x80 then [byte_of_N c]
  else if c <? 0x800 then
    [byte_of_N (N.lor 0xC0 (N.shiftr c 6));
     byte_of_N (N.lor 0x80 (N.land c 0x3F))]
  else if c <? 0x10000 then
    [byte_of_N (N.lor 0xE0 (N.shiftr c 12));
     byte_of_N (N.lor 0x80 (N.land (N.shiftr c 6) 0x3F));
     byte_of_N (N.lor 0x80 (N.land c 0x3F))]
  else
    [byte_of_N (N.lor 0xF0 (N.shiftr c 18));
     byte_of_N (N.lor 0x80 (N.land (N.shiftr c 12) 0x3F));
     byte_of_N (N.lor 0x80 (N.land (N.shiftr c 6) 0x3F));
     byte_of_N (N.lor 0x80 (N.land c 0x3F))].

(** U+FFFD, written for a surrogate that has no partner. *)
Definition replacement : buffer := [xef; xbf; xbd].

(** [Buffer.from(s)] with the default encoding ['utf8']: a surrogate pair
    is one code point of four bytes, a lone surrogate becomes U+FFFD. *)
Fixpoint encode (s : jsstring) : buffer :=
  match s with
  | [] => []
  | u :: rest =>
      if is_high_surrogate u then
        match rest with
        | lo :: rest' =>
            if is_low_surrogate lo then
              encode_code_point
                (0x10000 + (u - 0xD800) * 0x400 + (lo - 0xDC00))
                ++ encode rest'
            else replacement ++ encode rest
        | [] => replacement
        end
      else if is_low_surrogate u then replacement ++ encode rest
      else encode_code_point u ++ encode rest
  end.

End Utf8.

(** [Buffer.from(string)]. *)
Definition Buffer_from (s : jsstring) : buffer := Utf8.encode s.

(** ** [digest('hex')] *)

Module Hex.

(** The code unit of a lowercase hexadecimal digit. *)
Definition digit (n : N) : N := if n <? 10 then 48 + n else 87 + n.

Definition of_byte (b : byte) : jsstring :=
  let n := Byte.to_N b in [digit (n / 16); digit (n mod 16)].

Fixpoint encode (bs : buffer) : jsstring :=
  match bs with
  | [] => []
  | b :: bs' => of_byte b ++ encode bs'
  end.

End Hex.

(** ** SHA-256 and HMAC ([crypto.createHmac('sha256', key)])

    Node's [crypto] module is not part of the repository; the functions below
    follow FIPS 180-4 and RFC 2104, which it implements. *)

Module Sha256.

Definition mask32 : N := 0xFFFFFFFF.
Definition add32 (a b : N) : N := N.land (a + b) mask32.
Definition rotr (n x : N) : N :=
  N.lor (N.shiftr x n) (N.land (N.shiftl x (32 - n)) mask32).
Definition not32 (x : N) : N := N.lxor x mask32.

Definition Ch (x y z : N) : N := N.lxor (N.land x y) (N.land (not32 x) z).
Definition Maj (x y z : N) : N :=
  N.lxor (N.lxor (N.land x y) (N.land x z)) (N.land y z).
Definition Sigma0 (x : N) : N := N.lxor (N.lxor (rotr 2 x) (rotr 13 x)) (rotr 22 x).
Definition Sigma1 (x : N) : N := N.lxor (N.lxor (rotr 6 x) (rotr 11 x)) (rotr 25 x).
Definition sigma0 (x : N) : N := N.lxor (N.lxor (rotr 7 x) (rotr 18 x)) (N.shiftr x 3).
Definition sigma1 (x : N) : N := N.lxor (N.lxor (rotr 17 x) (rotr 19 x)) (N.shiftr x 10).

(** The constants are given by FIPS 180-4 as fractional parts of roots of
    the first primes. *)
Definition is_prime (n : nat) : bool :=
  forallb (fun d => negb (n mod d =? 0)%nat) (seq 2 (n - 2)).

Definition primes : list N := map N.of_nat (filter is_prime (seq 2 310)).

(** The integer cube root, bit by bit below bit [b]. *)
Fixpoint cube_root (b : nat) (n r : N) : N :=
  match b with
  | O => r
  | S b' =>
      let r' := r + N.shiftl 1 (N.of_nat b') in
      cube_root b' n (if r' * r' * r' <=? n then r' else r)
  end.

(** The first 32 bits of the fractional part of the cube root of [p]. *)
Definition cube_root_fraction (p : N) : N :=
  N.land (cube_root 40 (N.shiftl p 96) 0) mask32.

(** The first 32 bits of the fractional part of the square root of [p]. *)
Definition square_root_fraction (p : N) : N :=
  N.land (N.sqrt (N.shiftl p 64)) mask32.

Definition K : list N := Eval vm_compute in map cube_root_fraction primes.

Definition H0 : list N :=
  Eval vm_compute in map square_root_fraction (firstn 8 primes).

(** Big-endian words of a block of bytes. *)
Fixpoint words (bs : list N) : list N :=
  match bs with
  | b0 :: b1 :: b2 :: b3 :: rest =>
      (((b0 * 256 + b1) * 256 + b2) * 256 + b3) :: words rest
  | _ => []
  end.

Definition word_bytes (w : N) : list N :=
  [N.shiftr w 24 mod 256; N.shiftr w 16 mod 256; N.shiftr w 8 mod 256; w mod 256].

(** The message schedule: [n] more words after the ones in [w]. *)
Fixpoint schedule (n : nat) (w : list N) : list N :=
  match n with
  | O => w
  | S n' =>
      let t := length w in
      let at_ i := nth (t - i) w 0 in
      schedule n'
        (w ++ [add32 (add32 (sigma1 (at_ 2%nat)) (at_ 7%nat))
                     (add32 (sigma0 (at_ 15%nat)) (at_ 16%nat))])
  end.

Definition round (st : list N) (kw : N * N) : list N :=
  match st with
  | [a; b; c; d; e; f; g; h] =>
      let t1 := add32 (add32 (add32 h (Sigma1 e)) (add32 (Ch e f g) (fst kw))) (snd kw) in
      let t2 := add32 (Sigma0 a) (Maj a b c) in
      [add32 t1 t2; a; b; c; add32 d t1; e; f; g]
  | _ => st
  end.

Definition compress (h : list N) (block : list N) : list N :=
  let w := schedule 48 (words block) in
  let st := fold_left round (combine K w) h in
  map (fun p => add32 (fst p) (snd p)) (combine h st).

Definition pad (msg : list N) : list N :=
  let len := N.of_nat (length msg) in
  let zeros := N.to_nat ((64 - (len + 9) mod 64) mod 64) in
  let bits := len * 8 in
  msg ++ [0x80] ++ repeat 0 zeros
      ++ word_bytes (N.shiftr bits 32 mod 0x100000000)
      ++ word_bytes (bits mod 0x100000000).

Fixpoint blocks (fuel : nat) (h : list N) (bs : list N) : list N :=
  match fuel with
  | O => h
  | S fuel' =>
      match bs with
      | [] => h
      | _ => blocks fuel' (compress h (firstn 64 bs)) (skipn 64 bs)
      end
  end.

Definition hash (msg : buffer) : buffer :=
  let bs := pad (map Byte.to_N msg) in
  map byte_of_N (flat_map word_bytes (blocks (length bs) H0 bs)).

End Sha256.

Module Hmac.

Definition block_size : nat := 64.

Definition xor_pad (c : N) (key : buffer) : buffer :=
  map (fun b => byte_of_N (N.lxor (Byte.to_N b) c)) key.

Definition block_key (key : buffer) : buffer :=
  let k := if (block_size <? length key)%nat then Sha256.hash key else key in
  k ++ repeat x00 (block_size - length k).

Definition sha256 (key msg : buffer) : buffer :=
  let k := block_key key in
  Sha256.hash (xor_pad 0x5c k ++ Sha256.hash (xor_pad 0x36 k ++ msg)).

End Hmac.

(** The buffer of an ASCII literal. *)
Definition ascii_bytes (s : string) : buffer :=
  map byte_of_ascii (list_ascii_of_string s).

(** ** JavaScript values, exceptions and effects *)

#[local] Set Warnings "-register-all".

(** The values [JSON.parse] builds.  An object lists its own properties, one
    entry per key; [undefined] is the [None] of [option value]. *)
Inductive value : Type :=
| VNull
| VBool (b : bool)
| VNum (x : float)
| VStr (s : jsstring)
| VArr (items : list value)
| VObj (props : list (jsstring * value)).

Inductive exn : Type := TypeError | RangeError.

Inductive result (A : Type) : Type :=
| Ok (a : A)
| Throw (e : exn).
Arguments Ok {A} a.
Arguments Throw {A} e.

Inductive level : Type := Log | Warn | Error.

(** The nine handlers of the source. *)
Inductive handler : Type :=
| OnUserCreate | OnUserDelete | OnUserUpdate | OnLoginSuccess | OnLoginFailed
| OnRegistrationCreate | OnRefreshTokenRevoke | OnPasswordBreach | OnPasswordReset.

(** The console calls of the source, one tag per call site; the values
    interpolated into the text are kept next to the tag. *)
Inductive message : Type :=
| MissingSignatureHeader | SignatureFailed
| NewUser | UserDeleted | UserUpdated | LoginSucceeded | LoginFailed
| Registered | TokensRevoked | BreachDetected | PasswordResetDone
| UnhandledType
| HandlerError (err : exn).

(** What a request does, in program order.  [Verify] and [Invoke] are ghost
    events: they record that [verifyWebhookSignature] or a handler was
    entered. *)
Inductive obs : Type :=
| Console (l : level) (m : message) (args : list (option value))
| Respond (status : N) (error : option jsstring)
| Verify (header : jsstring)
| Invoke (h : handler) (event : value).

(** A computation writes a trace and returns a value or throws.  A rejected
    promise of an [async] function is a [Throw]; [await] rethrows it. *)
Definition M (A : Type) : Type := list obs * result A.

Definition ret {A} (a : A) : M A := ([], Ok a).
Definition throw {A} (e : exn) : M A := ([], Throw e).
Definition emit (o : obs) : M unit := ([o], Ok tt).

Definition bind {A B} (m : M A) (f : A -> M B) : M B :=
  match m with
  | (t, Ok a) => let (t', r) := f a in (t ++ t', r)
  | (t, Throw e) => (t, Throw e)
  end.

(** [try { m } catch (e) { h e }]. *)
Definition try_catch {A} (m : M A) (h : exn -> M A) : M A :=
  match m with
  | (t, Ok a) => (t, Ok a)
  | (t, Throw e) => let (t', r) := h e in (t ++ t', r)
  end.

Declare Scope js_scope.
Delimit Scope js_scope with js_scope.
Notation "x <- m ;; k" := (bind m (fun x => k))
  (at level 61, m at next level, right associativity) : js_scope.
Notation "m ;; k" := (bind m (fun _ => k))
  (at level 61, right associativity) : js_scope.
Local Open Scope js_scope.

Definition trace {A} (m : M A) : list obs := fst m.
Definition outcome {A} (m : M A) : result A := snd m.

(** *** Property access, truthiness, string conversion *)

Fixpoint own (k : jsstring) (props : list (jsstring * value)) : option value :=
  match props with
  | [] => None
  | (k', v) :: rest => if str_eqb k k' then Some v else own k rest
  end.

(** [o.k], for the property names the source reads ([event], [type], [id],
    [user], [email], [info], [ipAddress], [loginId], [reason],
    [registration], [applicationId], [roles], [userId]): none of them is
    defined on a prototype of a primitive, an array or a plain object. *)
Definition get (o : option value) (k : jsstring) : M (option value) :=
  match o with
  | None | Some VNull => throw TypeError
  | Some (VObj props) => ret (own k props)
  | Some _ => ret None
  end.

(** [o?.k]. *)
Definition opt_get (o : option value) (k : jsstring) : option value :=
  match o with
  | Some (VObj props) => own k props
  | _ => None
  end.

(** [v ?? d]. *)
Definition nullish_or (v : option value) (d : value) : option value :=
  match v with
  | None | Some VNull => Some d
  | _ => v
  end.

Definition truthy (v : option value) : bool :=
  match v with
  | None | Some VNull => false
  | Some (VBool b) => b
  | Some (VNum x) => negb (PrimFloat.eqb x PrimFloat.zero || PrimFloat.is_nan x)
  | Some (VStr s) => negb (str_eqb s [])
  | Some (VArr _) | Some (VObj _) => true
  end.

(** Whether [ToString(v)] completes.  An object with an own [toString]
    property (never callable in parsed JSON) has no primitive value, and the
    conversion throws; an array joins the conversions of its elements, a
    [null] element counting as the empty string.  The call stack is taken
    to be deep enough: on arrays nested by the thousand the engine runs out
    of stack inside [join] and throws a [RangeError], which is not
    modelled. *)
Fixpoint stringifies (v : value) : bool :=
  match v with
  | VObj props =>
      match own (js "toString") props with
      | Some _ => false
      | None => true
      end
  | VArr items =>
      forallb (fun x => match x with VNull => true | _ => stringifies x end) items
  | _ => true
  end.

Definition stringifies_opt (v : option value) : bool :=
  match v with
  | None => true
  | Some v => stringifies v
  end.

(** A template literal interpolating [args]. *)
Definition template (args : list (option value)) : M unit :=
  if forallb stringifies_opt args then ret tt else throw TypeError.

(** [console.log], [console.warn], [console.error] applied to a template. *)
Definition console (l : level) (m : message) (args : list (option value)) : M unit :=
  template args ;; emit (Console l m args).

(** [roles.join(', ')]: only an array has a callable [join]. *)
Definition join (roles : option value) : M unit :=
  match roles with
  | Some (VArr items) =>
      if stringifies (VArr items) then ret tt else throw TypeError
  | _ => throw TypeError
  end.

(** ** Signature verification *)

(** [req.body] when the route runs: the bytes [express.raw] read, or a
    value that is not a [Buffer], when [express.raw] read nothing or another
    body parser ran before it.  [NotBuffer] is a value on which [toString]
    cannot be called ([undefined]); [Other text] is an object or an array,
    whose [toString()] gives [text]: [[object Object]] for a plain object,
    the joined elements for an array left by [express.json()]. *)
Inductive reqbody : Type :=
| Buf (bytes : buffer)
| NotBuffer
| Other (text : jsstring).

(** [crypto.createHmac('sha256', secret).update(rawBody).digest('hex')];
    [update] throws on an argument that is neither a string nor a buffer. *)
Definition hmac_hex (secret : jsstring) (rawBody : reqbody) : M jsstring :=
  match rawBody with
  | Buf bytes => ret (Hex.encode (Hmac.sha256 (Buffer_from secret) bytes))
  | NotBuffer | Other _ => throw TypeError
  end.

(** [CRYPTO_memcmp]: the differences of all byte pairs, accumulated. *)
Fixpoint memcmp (a b : buffer) (acc : N) : N :=
  match a, b with
  | x :: a', y :: b' => memcmp a' b' (N.lor acc (N.lxor (Byte.to_N x) (Byte.to_N y)))
  | _, _ => acc
  end.

(** [crypto.timingSafeEqual(a, b)]: throws when the lengths differ. *)
Definition timingSafeEqual (a b : buffer) : M bool :=
  if (length a =? length b)%nat then ret (memcmp a b 0 =? 0)
  else throw RangeError.

(** The [try] block of [verifyWebhookSignature]. *)
Definition verify_try (rawBody : reqbody) (signatureHeader secret : jsstring) : M bool :=
  digest <- hmac_hex secret rawBody ;;
  let expected := js "sha256=" ++ digest in
  let a := Buffer_from signatureHeader in
  let b := Buffer_from expected in
  if negb (length a =? length b)%nat then ret false
  else timingSafeEqual a b.

Definition verifyWebhookSignature
    (rawBody : reqbody) (signatureHeader secret : jsstring) : M bool :=
  emit (Verify signatureHeader) ;;
  try_catch (verify_try rawBody signatureHeader secret) (fun _ => ret false).

(** ** Event handlers *)

Definition onUserCreate (event : value) : M unit :=
  emit (Invoke OnUserCreate event) ;;
  user <- get (Some event) (js "user") ;;
  email <- get user (js "email") ;;
  id <- get user (js "id") ;;
  console Log NewUser [email; id].

Definition onUserDelete (event : value) : M unit :=
  emit (Invoke OnUserDelete event) ;;
  user <- get (Some event) (js "user") ;;
  email <- get user (js "email") ;;
  id <- get user (js "id") ;;
  console Log UserDeleted [email; id].

Definition onUserUpdate (event : value) : M unit :=
  emit (Invoke OnUserUpdate event) ;;
  user <- get (Some event) (js "user") ;;
  id <- get user (js "id") ;;
  console Log UserUpdated [id].

Definition onLoginSuccess (event : value) : M unit :=
  emit (Invoke OnLoginSuccess event) ;;
  user <- get (Some event) (js "user") ;;
  email <- get user (js "email") ;;
  info <- get (Some event) (js "info") ;;
  let ip := nullish_or (opt_get info (js "ipAddress")) (VStr (js "unknown")) in
  console Log LoginSucceeded [email; ip].

Definition onLoginFailed (event : value) : M unit :=
  emit (Invoke OnLoginFailed event) ;;
  loginId <- get (Some event) (js "loginId") ;;
  info <- get (Some event) (js "info") ;;
  let ip := nullish_or (opt_get info (js "ipAddress")) (VStr (js "unknown")) in
  reason <- get (Some event) (js "reason") ;;
  console Warn LoginFailed [loginId; ip; reason].

(** The text joined from [reg.roles] stands in the trace as the array. *)
Definition onRegistrationCreate (event : value) : M unit :=
  emit (Invoke OnRegistrationCreate event) ;;
  user <- get (Some event) (js "user") ;;
  reg <- get (Some event) (js "registration") ;;
  id <- get user (js "id") ;;
  app <- get reg (js "applicationId") ;;
  roles <- get reg (js "roles") ;;
  join roles ;;
  console Log Registered [id; app; roles].

Definition onRefreshTokenRevoke (event : value) : M unit :=
  emit (Invoke OnRefreshTokenRevoke event) ;;
  userId <- get (Some event) (js "userId") ;;
  console Log TokensRevoked [userId].

Definition onPasswordBreach (event : value) : M unit :=
  emit (Invoke OnPasswordBreach event) ;;
  user <- get (Some event) (js "user") ;;
  email <- get user (js "email") ;;
  id <- get user (js "id") ;;
  console Warn BreachDetected [email; id].

Definition onPasswordReset (event : value) : M unit :=
  emit (Invoke OnPasswordReset event) ;;
  user <- get (Some event) (js "user") ;;
  email <- get user (js "email") ;;
  console Log PasswordResetDone [email].

(** ** Event router *)

(** The [case] labels of the [switch]; the comparison is strict equality, so
    only a string matches. *)
Definition route (type : option value) : option handler :=
  match type with
  | Some (VStr t) =>
      if str_eqb t (js "user.create") then Some OnUserCreate
      else if str_eqb t (js "user.update") then Some OnUserUpdate
      else if str_eqb t (js "user.delete") then Some OnUserDelete
      else if str_eqb t (js "user.deactivate") then Some OnUserDelete
      else if str_eqb t (js "user.login.success") then Some OnLoginSuccess
      else if str_eqb t (js "user.login.failed") then Some OnLoginFailed
      else if str_eqb t (js "user.registration.create") then Some OnRegistrationCreate
      else if str_eqb t (js "jwt.refresh-token.revoke") then Some OnRefreshTokenRevoke
      else if str_eqb t (js "user.password.breach") then Some OnPasswordBreach
      else if str_eqb t (js "user.password.reset.success") then Some OnPasswordReset
      else None
  | _ => None
  end.

Definition call (h : handler) : value -> M unit :=
  match h with
  | OnUserCreate => onUserCreate
  | OnUserDelete => onUserDelete
  | OnUserUpdate => onUserUpdate
  | OnLoginSuccess => onLoginSuccess
  | OnLoginFailed => onLoginFailed
  | OnRegistrationCreate => onRegistrationCreate
  | OnRefreshTokenRevoke => onRefreshTokenRevoke
  | OnPasswordBreach => onPasswordBreach
  | OnPasswordReset => onPasswordReset
  end.

Definition dispatchEvent (event : value) : M unit :=
  type <- get (Some event) (js "type") ;;
  match route type with
  | Some h => call h event
  | None =>
      id <- get (Some event) (js "id") ;;
      console Log UnhandledType [type; id]
  end.

(** ** Express route: [POST /fusionauth] *)

(** What the route reads of a request: the [x-fusionauth-signature] header
    and the body left by [express.raw]. *)
Record request : Type := {
  signature : option jsstring;
  body : reqbody
}.

(** Truthiness of a [string | undefined]. *)
Definition truthy_str (s : option jsstring) : bool := truthy (option_map VStr s).

(** The string behind a [string | undefined] once it is known to be set. *)
Definition text (s : option jsstring) : jsstring :=
  match s with
  | Some x => x
  | None => []
  end.

(** [res.status(code).json({ error })] and [res.sendStatus(200)]. *)
Definition respond_error (code : N) (error : string) : M unit :=
  emit (Respond code (Some (js error))).
Definition sendStatus (code : N) : M unit := emit (Respond code None).

(** The [try] statement of step 3. *)
Definition dispatch_guarded (event : value) : M unit :=
  try_catch (dispatchEvent event)
    (fun err =>
       type <- get (Some event) (js "type") ;;
       console Error (HandlerError err) [type]).

(** Step 3 of the route: acknowledge, then dispatch. *)
Definition acknowledge_and_dispatch (event : value) : M unit :=
  sendStatus 200 ;;
  dispatch_guarded event.

Section Route.

(** [buf.toString('utf-8')] and [JSON.parse] ([None] for a [SyntaxError])
    belong to the platform. *)
Variable Buffer_toString : buffer -> jsstring.
Variable JSON_parse : jsstring -> option value.

(** The [try] block around [JSON.parse]: [toString] is called on whatever
    [req.body] is.  On [undefined] the call throws, which the [catch]
    answers like a [SyntaxError]; on an object or an array it gives the text
    that is parsed. *)
Definition parse_body (b : reqbody) : option value :=
  match b with
  | Buf bytes => JSON_parse (Buffer_toString bytes)
  | NotBuffer => None
  | Other text => JSON_parse text
  end.

(** Steps 2 and 3 of the route. *)
Definition parse_and_dispatch (b : reqbody) : M unit :=
  match parse_body b with
  | None => respond_error 400 "Invalid JSON body"
  | Some payload =>
      let event := opt_get (Some payload) (js "event") in
      if negb (truthy (opt_get event (js "type"))) then
        respond_error 400 "Missing event.type"
      else
        match event with
        | Some e => acknowledge_and_dispatch e
        | None => respond_error 400 "Missing event.type"
        end
  end.

(** The handler registered on [fusionAuthWebhookRouter];
    [webhookSecret] is [process.env.FUSIONAUTH_WEBHOOK_SECRET]. *)
Definition fusionAuthWebhookRouter
    (webhookSecret : option jsstring) (req : request) : M unit :=
  if truthy_str webhookSecret then
    if negb (truthy_str (signature req)) then
      console Warn MissingSignatureHeader [] ;;
      respond_error 401 "Missing signature"
    else
      ok <- verifyWebhookSignature (body req) (text (signature req))
              (text webhookSecret) ;;
      if negb ok then
        console Warn SignatureFailed [] ;;
        respond_error 401 "Invalid signature"
      else parse_and_dispatch (body req)
  else parse_and_dispatch (body req).

End Route.

(** ** Reading a trace *)

Definition responses (t : list obs) : list N :=
  flat_map (fun o => match o with Respond c _ => [c] | _ => [] end) t.

Definition invoked (t : list obs) : list handler :=
  flat_map (fun o => match o with Invoke h _ => [h] | _ => [] end) t.

Definition verifications (t : list obs) : list jsstring :=
  flat_map (fun o => match o with Verify s => [s] | _ => [] end) t.

Definition warnings (t : list obs) : list message :=
  flat_map (fun o => match o with Console Warn m _ => [m] | _ => [] end) t.

(** Entries of the log-only fallback of [dispatchEvent]. *)
Definition fallbacks (t : list obs) : nat :=
  length (filter (fun o => match o with Console _ UnhandledType _ => true | _ => false end) t).

(** ** Vocabulary of the properties *)

(** What the interface [WebhookEvent] declares of the fields the dispatcher
    reads: [type] and [id] are strings. *)
Definition is_WebhookEvent (e : value) : bool :=
  match e with
  | VObj props =>
      match own (js "type") props, own (js "id") props with
      | Some (VStr _), Some (VStr _) => true
      | _, _ => false
      end
  | _ => false
  end.

Definition discriminator (e : value) : option value := opt_get (Some e) (js "type").

(** Console output other than the entry of the fallback. *)
Definition plain_console (o : obs) : Prop :=
  match o with
  | Console _ UnhandledType _ => False
  | Console _ _ _ => True
  | _ => False
  end.

Definition quiet {A} (m : M A) : Prop := Forall plain_console (trace m).

Definition is_ascii (s : jsstring) : Prop := Forall (fun u => u < 128) s.

(** The header FusionAuth sends for [rawBody] under [secret]: the tag
    [sha256=] and the lowercase hexadecimal HMAC-SHA256. *)
Definition expected_header (rawBody : buffer) (secret : jsstring) : jsstring :=
  js "sha256=" ++ Hex.encode (Hmac.sha256 (Buffer_from secret) rawBody).

(** The signature step lets a request through when no secret is set, or
    when the header is set and the verifier returns [true]. *)
Definition passes_signature_step
    (webhookSecret : option jsstring) (req : request) : bool :=
  negb (truthy_str webhookSecret) ||
  (truthy_str (signature req) &&
   match outcome (verifyWebhookSignature (body req) (text (signature req))
                    (text webhookSecret)) with
   | Ok true => true
   | _ => false
   end).

(** What the signature step leaves in the trace of a request it lets
    through. *)
Definition verified (webhookSecret : option jsstring) (req : request) : list obs :=
  if truthy_str webhookSecret then [Verify (text (signature req))] else [].

(** The discriminator the route tests: [payload?.event?.type]. *)
Definition payload_event (payload : value) : option value :=
  opt_get (Some payload) (js "event").
Definition payload_type (payload : value) : option value :=
  opt_get (payload_event payload) (js "type").

(** Events of a dispatch: handler entries and console output. *)
Definition dispatch_only (o : obs) : Prop :=
  match o with
  | Invoke _ _ | Console _ _ _ => True
  | _ => False
  end.

Definition calm {A} (m : M A) : Prop := Forall dispatch_only (trace m).

(** What the specification asks of a run without a configured secret: the
    receiver fails closed, or at least says that it lets the request through
    unchecked. *)
Definition fails_closed_or_announces (r : M unit) : Prop :=
  (responses (trace r) <> [200] /\ invoked (trace r) = []) \/ warnings (trace r) <> [].

(** The [case] labels of the [switch] of [dispatchEvent]: the recognised
    discriminators. *)
Definition case_labels : list jsstring :=
  map js
    ["user.create"%string; "user.update"%string; "user.delete"%string;
     "user.deactivate"%string; "user.login.success"%string;
     "user.login.failed"%string; "user.registration.create"%string;
     "jwt.refresh-token.revoke"%string; "user.password.breach"%string;
     "user.password.reset.success"%string].

(** The handlers that read [event.user]. *)
Definition reads_user (h : handler) : bool :=
  match h with
  | OnLoginFailed | OnRefreshTokenRevoke => false
  | _ => true
  end.

(** ** Scenarios *)

(** An event of the given type, as FusionAuth sends it. *)
Definition event_of (type : string) (more : list (jsstring * value)) : value :=
  VObj ((js "type", VStr (js type)) :: (js "id", VStr (js "e1"))
        :: (js "createInstant", VNum 1710000000000%float) :: more).

(** The bytes of a JSON text, written here with ['] for the double quote. *)
Definition json_bytes (s : string) : buffer :=
  map (fun c => if Ascii.eqb c "'" then x22 else byte_of_ascii c)
      (list_ascii_of_string s).

Definition field (k : string) (v : value) : jsstring * value := (js k, v).
Definition obj (props : list (jsstring * value)) : value := VObj props.
Definition str (s : string) : value := VStr (js s).

(** The bodies of the scenarios and the values [JSON.parse] gives them. *)
Definition scenarios : list (buffer * value) :=
  [ (json_bytes
       "{'event':{'type':'user.create','id':'e1','user':{'id':'u1','email':'a@b.com'}}}",
     obj [field "event"
            (obj [field "type" (str "user.create");
                  field "id" (str "e1");
                  field "user" (obj [field "id" (str "u1");
                                     field "email" (str "a@b.com")])])]);
    (json_bytes
       "{'event':{'type':'user.create','id':'e2','createInstant':1710000000000}}",
     obj [field "event"
            (obj [field "type" (str "user.create");
                  field "id" (str "e2");
                  field "createInstant" (VNum 1710000000000%float)])]);
    (json_bytes "{'event':{'type':'user.delete','id':'e3','user':{'id':'u1'}}}",
     obj [field "event"
            (obj [field "type" (str "user.delete");
                  field "id" (str "e3");
                  field "user" (obj [field "id" (str "u1")])])]);
    (json_bytes "{'event':{'type':'','id':'e4'}}",
     obj [field "event" (obj [field "type" (VStr []); field "id" (str "e4")])]);
    (json_bytes "{'event':{'type':{'toString':1}}}",
     obj [field "event"
            (obj [field "type" (obj [field "toString" (VNum 1%float)])])]) ].

(** [buf.toString('utf-8')] on a buffer of ASCII bytes. *)
Definition ascii_toString (b : buffer) : jsstring := map Byte.to_N b.

(** [JSON.parse] restricted to the texts used in the scenarios: a listed
    body parses to the value listed with it, and [not valid json] is a
    [SyntaxError]. *)
Definition scenario_parse (s : jsstring) : option value :=
  option_map snd
    (find (fun p => str_eqb s (ascii_toString (fst p))) scenarios).

Definition scenario_router : option jsstring -> request -> M unit :=
  fusionAuthWebhookRouter ascii_toString scenario_parse.

Definition nth_body (n : nat) : buffer := fst (nth n scenarios ([], VNull)).

(** A request signed by the holder of [secret]. *)
Definition signed (secret : jsstring) (b : buffer) : request :=
  {| signature := Some (expected_header b secret); body := Buf b |}.

Definition unsigned (b : buffer) : request :=
  {| signature := None; body := Buf b |}.

Definition payload_of (n : nat) : value := snd (nth n scenarios ([], VNull)).

Definition forged : request :=
  {| signature := Some (js "sha256=deadbeef"); body := Buf (nth_body 0) |}.

(** The event of the second scenario has no [user]: [onUserCreate] throws. *)
Definition event_without_user : value :=
  obj [field "type" (str "user.create"); field "id" (str "e2");
       field "createInstant" (VNum 1710000000000%float)].

(** ** The verifier and the route of the skill's guide

    [SKILL.md], section 9, shows a shorter verifier and route; the same
    verifier, under the name [verifySignature], is in
    [references/webhook-events.md]. *)

Module Skill.

(** What the route of the guide throws: an exception of the platform, or the
    [SyntaxError] of [JSON.parse]. *)
Inductive thrown : Type :=
| Native (e : exn)
| JsonSyntaxError.

(** [crypto.createHmac('sha256', secret)] and [Buffer.from(signature)] on a
    [string | undefined]: both throw a [TypeError] on [undefined]. *)
Definition createHmac_key (secret : option jsstring) : M buffer :=
  match secret with
  | Some s => ret (Buffer_from s)
  | None => throw TypeError
  end.

Definition Buffer_from_arg (s : option jsstring) : M buffer :=
  match s with
  | Some s => ret (Buffer_from s)
  | None => throw TypeError
  end.

(** The verifier of the guide: no length test, no [try]. *)
Definition verifyWebhookSignature
    (body : jsstring) (signature secret : option jsstring) : M bool :=
  key <- createHmac_key secret ;;
  let expected := Hex.encode (Hmac.sha256 key (Buffer_from body)) in
  a <- Buffer_from_arg signature ;;
  timingSafeEqual a (Buffer_from (js "sha256=" ++ expected)).

Section Platform.

Variable Buffer_toString : buffer -> jsstring.
Variable JSON_parse : jsstring -> option value.

(** The route of the guide, on a request whose body [express.raw] read into
    a buffer; [secret] is [process.env.WEBHOOK_SECRET].  The text sent with
    the 401 stands in the [error] field of [Respond]. *)
Definition webhook_route (secret signature : option jsstring) (body : buffer)
    : list obs * option thrown :=
  match verifyWebhookSignature (Buffer_toString body) signature secret with
  | (t, Throw e) => (t, Some (Native e))
  | (t, Ok false) => (t ++ [Respond 401 (Some (js "Invalid signature"))], None)
  | (t, Ok true) =>
      match JSON_parse (Buffer_toString body) with
      | None => (t, Some JsonSyntaxError)
      | Some event => (t ++ [Respond 200 None], None)
      end
  end.

End Platform.

End Skill.

(** ** Snippets of the Open Graph skill *)

Module OgImage.

(** [s.startsWith(prefix)]. *)
Definition startsWith (s prefix : jsstring) : bool :=
  str_eqb (firstn (length prefix) s) prefix.

(** [getSiteUrl] of the guide; [headersList.get] gives [null] for a header
    that is not there, which is [None] here, like [undefined]. *)
Definition getSiteUrl
    (x_forwarded_host host_header NEXT_PUBLIC_SITE_URL : option jsstring)
    : jsstring :=
  let host :=
    match x_forwarded_host with
    | Some h => Some h
    | None => host_header
    end in
  if truthy_str host then
    let protocol := if startsWith (text host) (js "localhost")
                    then js "http" else js "https" in
    protocol ++ js "://" ++ text host
  else
    match NEXT_PUBLIC_SITE_URL with
    | Some url => url
    | None => js "https://example.com"
    end.

(** The horizontal ellipsis, one code unit. *)
Definition ellipsis : N := 0x2026.

(** [text.length > 60 ? text.slice(0, 57) + ellipsis : text]. *)
Definition truncated (text : jsstring) : jsstring :=
  if (60 <? length text)%nat then firstn 57 text ++ [ellipsis] else text.

End OgImage.

(** ** Properties of the event router *)

(** *** Traces of sequenced computations *)

Lemma trace_bind {A B} (m : M A) (f : A -> M B) :
  trace (bind m f) =
  trace m ++ match outcome m with
             | Ok a => trace (f a)
             | Throw _ => []
             end.
Proof.
  destruct m as [t [a | e]]; unfold bind, trace, outcome; simpl.
  - destruct (f a); reflexivity.
  - now rewrite app_nil_r.
Qed.

Lemma outcome_bind {A B} (m : M A) (f : A -> M B) :
  outcome (bind m f) =
  match outcome m with
  | Ok a => outcome (f a)
  | Throw e => Throw e
  end.
Proof.
  destruct m as [t [a | e]]; unfold bind, outcome; simpl; [destruct (f a) |]; reflexivity.
Qed.

Lemma trace_try_catch {A} (m : M A) (h : exn -> M A) :
  trace (try_catch m h) =
  trace m ++ match outcome m with
             | Ok _ => []
             | Throw e => trace (h e)
             end.
Proof.
  destruct m as [t [a | e]]; unfold try_catch, trace, outcome; simpl.
  - now rewrite app_nil_r.
  - destruct (h e); reflexivity.
Qed.

Lemma outcome_try_catch {A} (m : M A) (h : exn -> M A) :
  outcome (try_catch m h) =
  match outcome m with
  | Ok a => Ok a
  | Throw e => outcome (h e)
  end.
Proof.
  destruct m as [t [a | e]]; unfold try_catch, outcome; simpl; [| destruct (h e)]; reflexivity.
Qed.

Lemma trace_emit_bind {B} (o : obs) (k : unit -> M B) :
  trace (bind (emit o) k) = o :: trace (k tt).
Proof. rewrite trace_bind; reflexivity. Qed.

Lemma outcome_emit_bind {B} (o : obs) (k : unit -> M B) :
  outcome (bind (emit o) k) = outcome (k tt).
Proof. rewrite outcome_bind; reflexivity. Qed.

Lemma quiet_bind {A B} (m : M A) (f : A -> M B) :
  quiet m -> (forall a, quiet (f a)) -> quiet (bind m f).
Proof.
  unfold quiet; intros Hm Hf; rewrite trace_bind.
  apply Forall_app; split; [exact Hm |].
  destruct (outcome m); [apply Hf | constructor].
Qed.

Lemma quiet_get o k : quiet (get o k).
Proof. destruct o as [[]|]; constructor. Qed.

Lemma quiet_template args : quiet (template args).
Proof. unfold template; destruct (forallb _ _); constructor. Qed.

Lemma quiet_join roles : quiet (join roles).
Proof.
  destruct roles as [[]|]; try constructor.
  unfold join; destruct (stringifies _); constructor.
Qed.

Lemma quiet_console l m args :
  m <> UnhandledType -> quiet (console l m args).
Proof.
  intros Hm; apply quiet_bind; [apply quiet_template |].
  intros _; repeat constructor. destruct m; simpl; auto.
Qed.

Lemma quiet_reads (t : list obs) :
  Forall plain_console t ->
  invoked t = [] /\ fallbacks t = 0%nat /\ responses t = [] /\ verifications t = [].
Proof.
  induction 1 as [| o t Ho _ IH]; [repeat split |].
  destruct IH as (Hi & Hf & Hr & Hv).
  unfold fallbacks in *; destruct o as [l m args | | |]; simpl in *; try contradiction.
  destruct m; simpl; try contradiction; auto.
Qed.

Create HintDb quiet.
#[local] Hint Resolve quiet_get quiet_template quiet_join : quiet.

Ltac quiet_steps :=
  repeat (apply quiet_bind; [auto with quiet | intros ?]);
  try (apply quiet_console; discriminate);
  try (repeat constructor).

(** A handler records its entry first; whatever follows is console output
    of its own. *)
Lemma handler_trace (h : handler) (e : value) :
  exists rest,
    trace (call h e) = Invoke h e :: rest /\ Forall plain_console rest.
Proof.
  destruct h;
    cbv beta iota delta
      [call onUserCreate onUserDelete onUserUpdate onLoginSuccess onLoginFailed
       onRegistrationCreate onRefreshTokenRevoke onPasswordBreach onPasswordReset];
    match goal with
    | |- context [bind (emit ?o) ?k] =>
        exists (trace (k tt)); split;
        [ apply trace_emit_bind
        | change (quiet (k tt)); cbv beta; quiet_steps ]
    end.
Qed.

Lemma bind_ret {A B} (a : A) (f : A -> M B) : bind (ret a) f = f a.
Proof. unfold bind, ret; destruct (f a); reflexivity. Qed.

Lemma dispatchEvent_routed props h :
  route (own (js "type") props) = Some h ->
  dispatchEvent (VObj props) = call h (VObj props).
Proof.
  intros Hr; unfold dispatchEvent, get; rewrite bind_ret, Hr; reflexivity.
Qed.

Lemma dispatchEvent_unrouted props :
  route (own (js "type") props) = None ->
  dispatchEvent (VObj props) =
  console Log UnhandledType [own (js "type") props; own (js "id") props].
Proof.
  intros Hr; unfold dispatchEvent, get; rewrite bind_ret, Hr, bind_ret; reflexivity.
Qed.

Lemma invoked_handler h e : invoked (trace (call h e)) = [h].
Proof.
  destruct (handler_trace h e) as (rest & -> & Hq).
  apply quiet_reads in Hq as (Hi & _); simpl; now rewrite Hi.
Qed.

Lemma fallbacks_handler h e : fallbacks (trace (call h e)) = 0%nat.
Proof.
  destruct (handler_trace h e) as (rest & -> & Hq).
  apply quiet_reads in Hq as (_ & Hf & _); exact Hf.
Qed.

(** The fallback of a conforming event logs and returns. *)
Lemma fallback_runs props :
  is_WebhookEvent (VObj props) = true ->
  route (own (js "type") props) = None ->
  dispatchEvent (VObj props) =
  ([Console Log UnhandledType [own (js "type") props; own (js "id") props]], Ok tt).
Proof.
  intros He Hr; rewrite (dispatchEvent_unrouted _ Hr).
  simpl in He.
  destruct (own (js "type") props) as [[]|]; try discriminate.
  destruct (own (js "id") props) as [[]|]; try discriminate.
  reflexivity.
Qed.

Lemma str_eqb_true (a : jsstring) : forall b, str_eqb a b = true -> a = b.
Proof.
  induction a as [| x a IH]; intros [| y b]; simpl; try discriminate; auto.
  intros H. apply andb_prop in H as [Hx Hab].
  apply N.eqb_eq in Hx. apply IH in Hab. now subst.
Qed.

(** A string that is none of the [case] labels falls to [default]. *)
Lemma route_unrecognised (t : jsstring) :
  ~ In t case_labels -> route (Some (VStr t)) = None.
Proof.
  intros Hn. unfold route.
  repeat match goal with
         | |- context [str_eqb t ?lit] =>
             let E := fresh "E" in
             destruct (str_eqb t lit) eqn:E;
             [exfalso; apply Hn; apply str_eqb_true in E; rewrite E;
              unfold case_labels; cbn [map In];
              repeat (first [left; reflexivity | right]) |]
         end.
  reflexivity.
Qed.

(** Every [case] label has a handler. *)
Lemma route_recognised (t : jsstring) :
  In t case_labels -> exists h, route (Some (VStr t)) = Some h.
Proof.
  unfold case_labels. cbn [map In].
  intros H. repeat (destruct H as [<- | H]; [eexists; reflexivity |]).
  contradiction.
Qed.

(** C7. [dispatchEvent] on an event of the interface [WebhookEvent]: the
    discriminator ["user.create"] enters [onUserCreate] once and nothing
    else; ["user.delete"] and ["user.deactivate"] both enter the one removal
    handler [onUserDelete]; every discriminator that is none of the [case]
    labels, ["x.unknown"] among them, enters no handler, runs the log-only
    fallback once and returns without an error, while every [case] label
    enters one handler; and every event enters exactly one target, a
    handler or the fallback. *)
Theorem dispatchEvent_one_target (e : value) :
  is_WebhookEvent e = true ->
  (discriminator e = Some (VStr (js "user.create")) ->
   invoked (trace (dispatchEvent e)) = [OnUserCreate]) /\
  (discriminator e = Some (VStr (js "user.delete")) \/
   discriminator e = Some (VStr (js "user.deactivate")) ->
   invoked (trace (dispatchEvent e)) = [OnUserDelete]) /\
  (forall t,
      discriminator e = Some (VStr t) ->
      ~ In t case_labels ->
      invoked (trace (dispatchEvent e)) = [] /\
      fallbacks (trace (dispatchEvent e)) = 1%nat /\
      outcome (dispatchEvent e) = Ok tt) /\
  (forall t,
      discriminator e = Some (VStr t) ->
      In t case_labels ->
      length (invoked (trace (dispatchEvent e))) = 1%nat /\
      fallbacks (trace (dispatchEvent e)) = 0%nat) /\
  (length (invoked (trace (dispatchEvent e))) + fallbacks (trace (dispatchEvent e)) = 1)%nat.
Proof.
  intros He; destruct e as [| | | | | props]; try discriminate.
  unfold discriminator, opt_get.
  split; [| split; [| split; [| split]]].
  - intros Ht. rewrite (dispatchEvent_routed props OnUserCreate).
    + apply invoked_handler.
    + rewrite Ht; reflexivity.
  - intros [Ht | Ht]; rewrite (dispatchEvent_routed props OnUserDelete);
      try apply invoked_handler; rewrite Ht; reflexivity.
  - intros t Ht Hn. rewrite (fallback_runs props He).
    + repeat split.
    + rewrite Ht. now apply route_unrecognised.
  - intros t Ht Hin. destruct (route_recognised t Hin) as [h Hh].
    rewrite <- Ht in Hh.
    rewrite (dispatchEvent_routed props h Hh), invoked_handler, fallbacks_handler.
    split; reflexivity.
  - destruct (route (own (js "type") props)) as [h |] eqn:Hr.
    + rewrite (dispatchEvent_routed props h Hr), invoked_handler, fallbacks_handler.
      reflexivity.
    + rewrite (fallback_runs props He Hr); reflexivity.
Qed.

Lemma dispatchEvent_one_target_witness :
  invoked (trace (dispatchEvent (event_of "user.create" []))) = [OnUserCreate] /\
  invoked (trace (dispatchEvent (event_of "user.deactivate" []))) = [OnUserDelete] /\
  (invoked (trace (dispatchEvent (event_of "x.unknown" []))) = [] /\
   fallbacks (trace (dispatchEvent (event_of "x.unknown" []))) = 1%nat /\
   outcome (dispatchEvent (event_of "x.unknown" [])) = Ok tt) /\
  (length (invoked (trace (dispatchEvent (event_of "user.login.failed" [])))) = 1%nat /\
   fallbacks (trace (dispatchEvent (event_of "user.login.failed" []))) = 0%nat).
Proof.
  split; [| split; [| split]].
  - apply (dispatchEvent_one_target (event_of "user.create" [])); reflexivity.
  - apply (dispatchEvent_one_target (event_of "user.deactivate" [])); [reflexivity |].
    right; reflexivity.
  - apply (dispatchEvent_one_target (event_of "x.unknown" []) eq_refl) with
      (t := js "x.unknown"); [reflexivity |].
    vm_compute. intros H.
    repeat (destruct H as [H | H]; [discriminate H |]). exact H.
  - apply (dispatchEvent_one_target (event_of "user.login.failed" []) eq_refl) with
      (t := js "user.login.failed"); [reflexivity |].
    vm_compute. tauto.
Defined.

(** ** Properties of the signature verifier *)

Lemma to_N_inj (x y : byte) : Byte.to_N x = Byte.to_N y -> x = y.
Proof.
  intros H. pose proof (Byte.of_to_N x) as Hx. pose proof (Byte.of_to_N y) as Hy.
  rewrite H in Hx. congruence.
Qed.

Lemma to_N_byte_of_N (n : N) : n < 256 -> Byte.to_N (byte_of_N n) = n.
Proof.
  intros Hn; unfold byte_of_N; rewrite N.mod_small by exact Hn.
  destruct (Byte.of_N n) eqn:E.
  - now apply Byte.to_of_N.
  - apply Byte.of_N_None_iff in E. lia.
Qed.

Lemma byte_of_N_inj (m n : N) :
  m < 256 -> n < 256 -> byte_of_N m = byte_of_N n -> m = n.
Proof.
  intros Hm Hn H. rewrite <- (to_N_byte_of_N m Hm), <- (to_N_byte_of_N n Hn).
  now rewrite H.
Qed.

(** [memcmp] is zero exactly on equal buffers. *)
Lemma memcmp_zero (a : buffer) :
  forall (b : buffer) (acc : N),
    length a = length b ->
    (memcmp a b acc = 0 <-> acc = 0 /\ a = b).
Proof.
  induction a as [| x a IH]; intros [| y b] acc Hlen; simpl in *; try discriminate.
  - intuition.
  - injection Hlen as Hlen. rewrite (IH b _ Hlen), N.lor_eq_0_iff, N.lxor_eq_0_iff.
    split.
    + intros [[Hacc Hxy] Hab]. apply to_N_inj in Hxy. subst. auto.
    + intros [Hacc Heq]. injection Heq as -> ->. auto.
Qed.

Lemma timingSafeEqual_same (a : buffer) : timingSafeEqual a a = ([], Ok true).
Proof.
  unfold timingSafeEqual. rewrite Nat.eqb_refl.
  assert (H : memcmp a a 0 = 0) by (apply memcmp_zero; auto).
  rewrite H; reflexivity.
Qed.

Lemma timingSafeEqual_differ (a b : buffer) :
  length a = length b -> a <> b -> timingSafeEqual a b = ([], Ok false).
Proof.
  intros Hlen Hab. unfold timingSafeEqual.
  rewrite (proj2 (Nat.eqb_eq _ _) Hlen).
  destruct (memcmp a b 0 =? 0) eqn:E; [| reflexivity].
  apply N.eqb_eq, memcmp_zero in E; [| exact Hlen]. now destruct E.
Qed.

Lemma timingSafeEqual_throws (a b : buffer) :
  length a <> length b -> timingSafeEqual a b = ([], Throw RangeError).
Proof.
  intros Hlen; unfold timingSafeEqual.
  now rewrite (proj2 (Nat.eqb_neq _ _) Hlen).
Qed.

Lemma ascii_not_surrogate (u : N) :
  u < 128 -> Utf8.is_high_surrogate u = false /\ Utf8.is_low_surrogate u = false.
Proof.
  intros Hu; unfold Utf8.is_high_surrogate, Utf8.is_low_surrogate.
  split; apply andb_false_intro1, N.leb_gt; lia.
Qed.

Lemma encode_ascii (s : jsstring) :
  is_ascii s -> Utf8.encode s = map byte_of_N s.
Proof.
  induction 1 as [| u s Hu _ IH]; [reflexivity |].
  destruct (ascii_not_surrogate u Hu) as [Hhi Hlo].
  cbn [Utf8.encode map]. rewrite Hhi, Hlo, IH.
  unfold Utf8.encode_code_point.
  rewrite (proj2 (N.ltb_lt _ _) Hu). reflexivity.
Qed.

Lemma Buffer_from_inj (s t : jsstring) :
  is_ascii s -> is_ascii t -> Buffer_from s = Buffer_from t -> s = t.
Proof.
  unfold Buffer_from; intros Hs Ht; rewrite !encode_ascii by assumption.
  revert t Ht; induction Hs as [| u s Hu Hs IH]; intros [| v t] Ht H;
    simpl in *; try discriminate; [reflexivity |].
  inversion Ht as [| ? ? Hv Ht']; subst.
  injection H as Huv Hst.
  apply byte_of_N_inj in Huv; [| lia | lia].
  f_equal; [exact Huv | now apply IH].
Qed.

Lemma digit_ascii (n : N) : n < 16 -> Hex.digit n < 128.
Proof. unfold Hex.digit; destruct (n <? 10); lia. Qed.

Lemma digit_inj (m n : N) : m < 16 -> n < 16 -> Hex.digit m = Hex.digit n -> m = n.
Proof.
  unfold Hex.digit; intros Hm Hn.
  destruct (m <? 10) eqn:Em, (n <? 10) eqn:En;
    rewrite ?N.ltb_lt, ?N.ltb_ge in *; lia.
Qed.

Lemma to_N_bound (b : byte) : Byte.to_N b < 256.
Proof. pose proof (Byte.to_N_bounded b); lia. Qed.

Lemma hex_ascii (bs : buffer) : is_ascii (Hex.encode bs).
Proof.
  induction bs as [| b bs IH]; [constructor |].
  pose proof (to_N_bound b) as Hb.
  simpl; repeat constructor; try exact IH; apply digit_ascii.
  - apply N.Div0.div_lt_upper_bound; lia.
  - apply N.mod_lt; lia.
Qed.

Lemma hex_inj (bs : buffer) : forall bs', Hex.encode bs = Hex.encode bs' -> bs = bs'.
Proof.
  induction bs as [| b bs IH]; intros [| b' bs'] H; simpl in *; try discriminate;
    [reflexivity |].
  injection H as Hhi Hlo Hrest.
  pose proof (to_N_bound b) as Hb. pose proof (to_N_bound b') as Hb'.
  apply digit_inj in Hhi;
    [| apply N.Div0.div_lt_upper_bound; lia | apply N.Div0.div_lt_upper_bound; lia].
  apply digit_inj in Hlo; [| apply N.mod_lt; lia | apply N.mod_lt; lia].
  f_equal; [| now apply IH].
  apply to_N_inj.
  rewrite (N.div_mod (Byte.to_N b) 16), (N.div_mod (Byte.to_N b') 16) by lia.
  now rewrite Hhi, Hlo.
Qed.

Lemma expected_header_ascii rawBody secret : is_ascii (expected_header rawBody secret).
Proof.
  apply Forall_app; split; [| apply hex_ascii].
  repeat constructor.
Qed.

Lemma verify_try_buf (P : buffer) (sig secret : jsstring) :
  verify_try (Buf P) sig secret =
  if negb (length (Buffer_from sig) =? length (Buffer_from (expected_header P secret)))%nat
  then ret false
  else timingSafeEqual (Buffer_from sig) (Buffer_from (expected_header P secret)).
Proof. unfold verify_try, hmac_hex; rewrite bind_ret; reflexivity. Qed.

Lemma verify_try_equal (P : buffer) (sig secret : jsstring) :
  Buffer_from sig = Buffer_from (expected_header P secret) ->
  verify_try (Buf P) sig secret = ([], Ok true).
Proof.
  intros H; rewrite verify_try_buf, H, Nat.eqb_refl; simpl.
  apply timingSafeEqual_same.
Qed.

Lemma verify_try_differ (P : buffer) (sig secret : jsstring) :
  Buffer_from sig <> Buffer_from (expected_header P secret) ->
  verify_try (Buf P) sig secret = ([], Ok false).
Proof.
  intros H; rewrite verify_try_buf.
  destruct (Nat.eqb_spec (length (Buffer_from sig))
              (length (Buffer_from (expected_header P secret)))) as [Hlen | Hlen];
    simpl; [now apply timingSafeEqual_differ | reflexivity].
Qed.

Lemma verify_unfold (rawBody : reqbody) (sig secret : jsstring) :
  verifyWebhookSignature rawBody sig secret =
  (Verify sig :: trace (try_catch (verify_try rawBody sig secret) (fun _ => ret false)),
   outcome (try_catch (verify_try rawBody sig secret) (fun _ => ret false))).
Proof.
  unfold verifyWebhookSignature, bind, emit, trace, outcome.
  destruct (try_catch _ _); reflexivity.
Qed.

Lemma verify_try_silent (rawBody : reqbody) (sig secret : jsstring) :
  trace (verify_try rawBody sig secret) = [].
Proof.
  destruct rawBody as [P | | text]; [| reflexivity | reflexivity].
  rewrite verify_try_buf. unfold timingSafeEqual.
  destruct (_ =? _)%nat; reflexivity.
Qed.

(** The verifier always returns a boolean: what its [try] block returned,
    or [false] when the block threw. *)
Lemma verify_result (rawBody : reqbody) (sig secret : jsstring) :
  verifyWebhookSignature rawBody sig secret =
  ([Verify sig],
   Ok match outcome (verify_try rawBody sig secret) with
      | Ok b => b
      | Throw _ => false
      end).
Proof.
  rewrite verify_unfold, trace_try_catch, outcome_try_catch, verify_try_silent.
  destruct (outcome (verify_try rawBody sig secret)); reflexivity.
Qed.

(** C1. For every payload [P] and secret [S], the verifier accepts the
    header [sha256=] followed by the lowercase hexadecimal HMAC-SHA256 of [P]
    under [S], and rejects that header computed under a secret [S'] whose
    digest of [P] differs from the digest under [S]. *)
Theorem verifyWebhookSignature_hmac (P : buffer) (S S' : jsstring) :
  outcome (verifyWebhookSignature (Buf P) (expected_header P S) S) = Ok true /\
  (Hmac.sha256 (Buffer_from S') P <> Hmac.sha256 (Buffer_from S) P ->
   outcome (verifyWebhookSignature (Buf P) (expected_header P S') S) = Ok false).
Proof.
  split.
  - rewrite verify_result, verify_try_equal; reflexivity.
  - intros Hd. rewrite verify_result, verify_try_differ; [reflexivity |].
    intros Heq. apply Buffer_from_inj in Heq; try apply expected_header_ascii.
    apply app_inv_head, hex_inj in Heq. contradiction.
Qed.

Lemma verifyWebhookSignature_hmac_witness :
  outcome (verifyWebhookSignature (Buf (ascii_bytes "{}"))
             (expected_header (ascii_bytes "{}") (js "other")) (js "secret"))
  = Ok false.
Proof.
  apply (verifyWebhookSignature_hmac (ascii_bytes "{}") (js "secret") (js "other")).
  vm_compute; discriminate.
Defined.

(** C9. [verifyWebhookSignature] returns a boolean on every body, header
    and secret, and never throws.  When the body is a buffer and the byte
    length of the header differs from that of the computed [sha256=] string,
    its [try] block returns [false] without raising, although
    [crypto.timingSafeEqual] throws on these two buffers; and whenever the
    [try] block throws, the function returns [false]. *)
Theorem verifyWebhookSignature_total (rawBody : reqbody) (sig secret : jsstring) :
  (exists b : bool,
      verifyWebhookSignature rawBody sig secret = ([Verify sig], Ok b)) /\
  (forall P,
      rawBody = Buf P ->
      length (Buffer_from sig) <> length (Buffer_from (expected_header P secret)) ->
      verify_try rawBody sig secret = ([], Ok false) /\
      outcome (timingSafeEqual (Buffer_from sig) (Buffer_from (expected_header P secret)))
      = Throw RangeError) /\
  (forall e,
      outcome (verify_try rawBody sig secret) = Throw e ->
      outcome (verifyWebhookSignature rawBody sig secret) = Ok false).
Proof.
  split; [| split].
  - rewrite verify_result; eauto.
  - intros P -> Hlen; split.
    + rewrite verify_try_buf.
      now rewrite (proj2 (Nat.eqb_neq _ _) Hlen).
    + now rewrite timingSafeEqual_throws.
  - intros e He. now rewrite verify_result, He.
Qed.

Lemma verifyWebhookSignature_total_witness :
  (verify_try (Buf []) (js "sha256=deadbeef") (js "secret") = ([], Ok false) /\
   outcome (timingSafeEqual (Buffer_from (js "sha256=deadbeef"))
              (Buffer_from (expected_header [] (js "secret"))))
   = Throw RangeError) /\
  outcome (verifyWebhookSignature NotBuffer (js "sha256=deadbeef") (js "secret"))
  = Ok false.
Proof.
  split.
  - apply (verifyWebhookSignature_total (Buf []) (js "sha256=deadbeef") (js "secret"));
      [reflexivity | vm_compute; discriminate].
  - apply (proj2 (proj2 (verifyWebhookSignature_total NotBuffer
                            (js "sha256=deadbeef") (js "secret"))) TypeError).
    reflexivity.
Defined.

(** ** Properties of the route *)

Lemma plain_dispatch_only (t : list obs) :
  Forall plain_console t -> Forall dispatch_only t.
Proof.
  apply Forall_impl. intros [l m args | | |]; simpl; auto.
Qed.

Lemma calm_bind {A B} (m : M A) (f : A -> M B) :
  calm m -> (forall a, calm (f a)) -> calm (bind m f).
Proof.
  unfold calm; intros Hm Hf; rewrite trace_bind.
  apply Forall_app; split; [exact Hm |].
  destruct (outcome m); [apply Hf | constructor].
Qed.

Lemma calm_get o k : calm (get o k).
Proof. apply plain_dispatch_only, quiet_get. Qed.

Lemma calm_console l m args : calm (console l m args).
Proof.
  apply calm_bind; [apply plain_dispatch_only, quiet_template |].
  intros _; repeat constructor.
Qed.

Lemma calm_call h e : calm (call h e).
Proof.
  unfold calm. destruct (handler_trace h e) as (rest & -> & Hq).
  constructor; [exact I | now apply plain_dispatch_only].
Qed.

Lemma calm_dispatchEvent e : calm (dispatchEvent e).
Proof.
  unfold dispatchEvent. apply calm_bind; [apply calm_get |].
  intros type. destruct (route type) as [h |]; [apply calm_call |].
  apply calm_bind; [apply calm_get | intros id; apply calm_console].
Qed.

Lemma calm_dispatch_guarded e : calm (dispatch_guarded e).
Proof.
  unfold calm, dispatch_guarded. rewrite trace_try_catch.
  apply Forall_app; split; [apply calm_dispatchEvent |].
  destruct (outcome (dispatchEvent e)) as [| err]; [constructor |].
  apply calm_bind; [apply calm_get | intros type; apply calm_console].
Qed.

Lemma calm_reads (t : list obs) :
  Forall dispatch_only t -> responses t = [] /\ verifications t = [].
Proof.
  induction 1 as [| o t Ho _ [IHr IHv]]; [split; reflexivity |].
  destruct o; simpl in *; try contradiction; auto.
Qed.

Lemma responses_app (s t : list obs) : responses (s ++ t) = responses s ++ responses t.
Proof. apply flat_map_app. Qed.

Lemma invoked_app (s t : list obs) : invoked (s ++ t) = invoked s ++ invoked t.
Proof. apply flat_map_app. Qed.

Lemma acknowledge_trace e :
  trace (acknowledge_and_dispatch e) = Respond 200 None :: trace (dispatch_guarded e).
Proof. apply trace_emit_bind. Qed.

Lemma acknowledge_outcome e :
  outcome (acknowledge_and_dispatch e) = outcome (dispatch_guarded e).
Proof. apply outcome_emit_bind. Qed.

Lemma M_eta {A} (m : M A) : m = (trace m, outcome m).
Proof. destruct m; reflexivity. Qed.

Lemma bind_value {A B} (t : list obs) (a : A) (f : A -> M B) :
  bind (t, Ok a) f = (t ++ trace (f a), outcome (f a)).
Proof. unfold bind; destruct (f a); reflexivity. Qed.

(** A truthy [event?.type] is a property of an object. *)
Lemma truthy_type_object (event : option value) :
  truthy (opt_get event (js "type")) = true ->
  exists props, event = Some (VObj props).
Proof.
  destruct event as [[]|]; simpl; try discriminate. eauto.
Qed.

Section RouteProperties.

Variable Buffer_toString : buffer -> jsstring.
Variable JSON_parse : jsstring -> option value.

#[local] Abbreviation parse := (parse_body Buffer_toString JSON_parse).
#[local] Abbreviation steps_2_3 := (parse_and_dispatch Buffer_toString JSON_parse).
#[local] Abbreviation router := (fusionAuthWebhookRouter Buffer_toString JSON_parse).

Lemma unparsable_body b :
  parse b = None ->
  steps_2_3 b = ([Respond 400 (Some (js "Invalid JSON body"))], Ok tt).
Proof. intros H; unfold parse_and_dispatch; rewrite H; reflexivity. Qed.

Lemma falsy_type b payload :
  parse b = Some payload ->
  truthy (payload_type payload) = false ->
  steps_2_3 b = ([Respond 400 (Some (js "Missing event.type"))], Ok tt).
Proof.
  intros Hp Ht; unfold parse_and_dispatch; rewrite Hp.
  fold (payload_event payload). fold (payload_type payload).
  rewrite Ht; reflexivity.
Qed.

Lemma truthy_type b payload :
  parse b = Some payload ->
  truthy (payload_type payload) = true ->
  exists props,
    payload_event payload = Some (VObj props) /\
    steps_2_3 b = acknowledge_and_dispatch (VObj props).
Proof.
  intros Hp Ht. destruct (truthy_type_object _ Ht) as [props He].
  exists props; split; [exact He |].
  unfold parse_and_dispatch; rewrite Hp.
  fold (payload_event payload). fold (payload_type payload).
  rewrite Ht, He; reflexivity.
Qed.

(** The three ways through the signature step. *)
Lemma router_bypass secret req :
  truthy_str secret = false -> router secret req = steps_2_3 (body req).
Proof. intros H; unfold fusionAuthWebhookRouter; rewrite H; reflexivity. Qed.

Lemma router_missing secret req :
  truthy_str secret = true ->
  truthy_str (signature req) = false ->
  router secret req =
  ([Console Warn MissingSignatureHeader [];
    Respond 401 (Some (js "Missing signature"))], Ok tt).
Proof. intros Hs Hh; unfold fusionAuthWebhookRouter; rewrite Hs, Hh; reflexivity. Qed.

Lemma router_checked secret req :
  truthy_str secret = true ->
  truthy_str (signature req) = true ->
  router secret req =
  match outcome (verifyWebhookSignature (body req) (text (signature req)) (text secret)) with
  | Ok true =>
      (Verify (text (signature req)) :: trace (steps_2_3 (body req)),
       outcome (steps_2_3 (body req)))
  | _ =>
      ([Verify (text (signature req)); Console Warn SignatureFailed [];
        Respond 401 (Some (js "Invalid signature"))], Ok tt)
  end.
Proof.
  intros Hs Hh; unfold fusionAuthWebhookRouter; rewrite Hs, Hh; cbn [negb].
  rewrite verify_result, bind_value. cbn [outcome snd].
  destruct (outcome (verify_try (body req) (text (signature req)) (text secret)))
    as [[|] | e]; reflexivity.
Qed.

Lemma router_passed secret req :
  passes_signature_step secret req = true ->
  router secret req =
  (verified secret req ++ trace (steps_2_3 (body req)), outcome (steps_2_3 (body req))).
Proof.
  unfold passes_signature_step, verified; intros H.
  destruct (truthy_str secret) eqn:Hs; simpl in H.
  - apply andb_prop in H as [Hh Hv]. rewrite (router_checked _ _ Hs Hh).
    destruct (outcome (verifyWebhookSignature _ _ _)) as [[|] |]; try discriminate.
    reflexivity.
  - rewrite (router_bypass _ _ Hs). apply M_eta.
Qed.

Lemma router_rejected secret req :
  passes_signature_step secret req = false ->
  router secret req =
  ([Console Warn MissingSignatureHeader [];
    Respond 401 (Some (js "Missing signature"))], Ok tt) \/
  router secret req =
  ([Verify (text (signature req)); Console Warn SignatureFailed [];
    Respond 401 (Some (js "Invalid signature"))], Ok tt).
Proof.
  unfold passes_signature_step; intros H.
  destruct (truthy_str secret) eqn:Hs; simpl in H; [| discriminate].
  destruct (truthy_str (signature req)) eqn:Hh; simpl in H.
  - right. rewrite (router_checked _ _ Hs Hh).
    destruct (outcome (verifyWebhookSignature _ _ _)) as [[|] |];
      [discriminate | reflexivity | reflexivity].
  - left. now apply router_missing.
Qed.

(** Steps 2 and 3 answer 400, or acknowledge and dispatch an object. *)
Lemma steps_2_3_cases b :
  (exists error, steps_2_3 b = ([Respond 400 (Some error)], Ok tt)) \/
  (exists props, steps_2_3 b = acknowledge_and_dispatch (VObj props)).
Proof.
  destruct (parse b) as [payload |] eqn:Hp.
  - destruct (truthy (payload_type payload)) eqn:Ht.
    + destruct (truthy_type b payload Hp Ht) as (props & _ & ->). right; eauto.
    + left. rewrite (falsy_type b payload Hp Ht). eauto.
  - left. rewrite (unparsable_body b Hp). eauto.
Qed.

Lemma steps_2_3_reads b :
  verifications (trace (steps_2_3 b)) = [] /\
  (responses (trace (steps_2_3 b)) = [400] \/ responses (trace (steps_2_3 b)) = [200]).
Proof.
  destruct (steps_2_3_cases b) as [[error ->] | [props ->]]; [split; auto |].
  rewrite acknowledge_trace; simpl.
  destruct (calm_reads _ (calm_dispatch_guarded (VObj props))) as [-> ->]; auto.
Qed.

Lemma verified_reads secret req :
  responses (verified secret req) = [] /\ invoked (verified secret req) = [].
Proof. unfold verified; destruct (truthy_str secret); split; reflexivity. Qed.

(** The signature step, spelled out: it rejects when a secret is set and
    the header is missing, empty or refused by the verifier. *)
Lemma signature_step_cases secret req :
  (passes_signature_step secret req = false <->
   truthy_str secret = true /\
   (truthy_str (signature req) = false \/
    outcome (verifyWebhookSignature (body req) (text (signature req)) (text secret))
    <> Ok true)) /\
  (passes_signature_step secret req = true <->
   truthy_str secret = false \/
   (truthy_str (signature req) = true /\
    outcome (verifyWebhookSignature (body req) (text (signature req)) (text secret))
    = Ok true)).
Proof.
  unfold passes_signature_step.
  destruct (truthy_str secret); destruct (truthy_str (signature req));
    destruct (outcome (verifyWebhookSignature _ _ _)) as [[|] | e];
    cbn [negb orb andb]; split; split;
    try discriminate; try tauto;
    intuition (try discriminate; try congruence).
Qed.

(** C4, as the code has it. Every request that reaches the route gets one
    answer.  When a secret is configured and the signature header is
    missing, empty or refused by the verifier, the answer is 401.  When no
    secret is configured (the signature is then not looked at) or the
    header verifies, the answer is 400 if the body does not parse or the
    parsed payload has no discriminator (the test [!event?.type]), and 200
    otherwise.  Where the answer is 401 or 400 no handler is entered. *)
Theorem response_contract secret req :
  (truthy_str secret = true ->
   truthy_str (signature req) = false \/
   outcome (verifyWebhookSignature (body req) (text (signature req)) (text secret))
   <> Ok true ->
   responses (trace (router secret req)) = [401] /\
   invoked (trace (router secret req)) = []) /\
  (truthy_str secret = false \/
   (truthy_str (signature req) = true /\
    outcome (verifyWebhookSignature (body req) (text (signature req)) (text secret))
    = Ok true) ->
   (parse (body req) = None \/
    (exists payload, parse (body req) = Some payload /\
                     truthy (payload_type payload) = false) ->
    responses (trace (router secret req)) = [400] /\
    invoked (trace (router secret req)) = []) /\
   (forall payload,
       parse (body req) = Some payload ->
       truthy (payload_type payload) = true ->
       responses (trace (router secret req)) = [200])).
Proof.
  destruct (signature_step_cases secret req) as [Hrej Hpass].
  split.
  - intros Hs Hbad.
    assert (H : passes_signature_step secret req = false) by (apply Hrej; auto).
    destruct (router_rejected secret req H) as [-> | ->]; split; reflexivity.
  - intros Hok.
    assert (H : passes_signature_step secret req = true) by (apply Hpass; exact Hok).
    rewrite (router_passed secret req H).
    destruct (verified_reads secret req) as [Hr Hi].
    cbn [trace fst]. rewrite responses_app, invoked_app, Hr, Hi.
    split.
    + intros [Hp | (payload & Hp & Ht)].
      * rewrite (unparsable_body _ Hp); split; reflexivity.
      * rewrite (falsy_type _ _ Hp Ht); split; reflexivity.
    + intros payload Hp Ht.
      destruct (truthy_type _ _ Hp Ht) as (props & _ & ->).
      rewrite acknowledge_trace; simpl.
      destruct (calm_reads _ (calm_dispatch_guarded (VObj props))) as [-> _].
      reflexivity.
Qed.

(** C5. For every request that passes the signature step with a parsed
    body and a discriminator, the trace is some [pre], then the 200, then
    [post]: [pre] enters no handler and answers nothing, and [post] is
    everything the dispatch of the event does. *)
Theorem acknowledged_before_dispatch secret req payload :
  passes_signature_step secret req = true ->
  parse (body req) = Some payload ->
  truthy (payload_type payload) = true ->
  exists event pre post,
    payload_event payload = Some event /\
    trace (router secret req) = pre ++ Respond 200 None :: post /\
    invoked pre = [] /\ responses pre = [] /\
    post = trace (dispatch_guarded event) /\ responses post = [].
Proof.
  intros H Hp Ht. destruct (truthy_type _ _ Hp Ht) as (props & He & Hs).
  exists (VObj props), (verified secret req), (trace (dispatch_guarded (VObj props))).
  destruct (verified_reads secret req) as [Hr Hi].
  destruct (calm_reads _ (calm_dispatch_guarded (VObj props))) as [Hd _].
  rewrite (router_passed secret req H), Hs. cbn [trace fst].
  rewrite acknowledge_trace. auto 10.
Qed.

(** The [catch] of step 3 logs and returns when the discriminator is a
    string. *)
Lemma dispatch_guarded_string props t :
  own (js "type") props = Some (VStr t) ->
  outcome (dispatch_guarded (VObj props)) = Ok tt /\
  forall err,
    outcome (dispatchEvent (VObj props)) = Throw err ->
    trace (dispatch_guarded (VObj props)) =
    trace (dispatchEvent (VObj props))
      ++ [Console Error (HandlerError err) [Some (VStr t)]].
Proof.
  intros Ht.
  assert (Hc : forall err,
             (type <- get (Some (VObj props)) (js "type") ;;
              console Error (HandlerError err) [type]) =
             ([Console Error (HandlerError err) [Some (VStr t)]], Ok tt)).
  { intros err. unfold get. rewrite bind_ret, Ht. reflexivity. }
  unfold dispatch_guarded.
  rewrite outcome_try_catch, trace_try_catch.
  split.
  - destruct (outcome (dispatchEvent (VObj props))) as [[] | err];
      [reflexivity | now rewrite Hc].
  - intros err ->. now rewrite Hc.
Qed.

(** C6. For every request that passes the signature step and carries an
    event whose discriminator is a string, as the interface [WebhookEvent]
    declares it, the route returns normally and its only answer is the 200,
    whatever the handler does; when the dispatch throws, the error is caught
    by the [catch] of the route, which logs it last. *)
Theorem handler_failure_contained secret req payload event t :
  passes_signature_step secret req = true ->
  parse (body req) = Some payload ->
  payload_event payload = Some event ->
  discriminator event = Some (VStr t) ->
  truthy (payload_type payload) = true ->
  outcome (router secret req) = Ok tt /\
  responses (trace (router secret req)) = [200] /\
  forall err,
    outcome (dispatchEvent event) = Throw err ->
    exists before,
      trace (router secret req) =
      before ++ [Console Error (HandlerError err) [discriminator event]].
Proof.
  intros H Hp He Hd Ht.
  destruct (truthy_type _ _ Hp Ht) as (props & He' & Hs).
  rewrite He in He'; injection He' as ->.
  assert (Hty : own (js "type") props = Some (VStr t)) by exact Hd.
  destruct (dispatch_guarded_string props t Hty) as [Hok Hlog].
  rewrite (router_passed secret req H), Hs. cbn [trace outcome fst snd].
  rewrite acknowledge_outcome, acknowledge_trace.
  split; [exact Hok | split].
  - destruct (verified_reads secret req) as [Hr _].
    rewrite responses_app, Hr; simpl.
    destruct (calm_reads _ (calm_dispatch_guarded (VObj props))) as [-> _].
    reflexivity.
  - intros err Herr. rewrite (Hlog err Herr).
    exists (verified secret req ++ Respond 200 None :: trace (dispatchEvent (VObj props))).
    rewrite Hd, <- app_assoc. reflexivity.
Qed.

(** C10. A request that passes the signature step and whose body parses,
    but whose [event] is missing or [null], or whose [event.type] is absent
    or the empty string, is answered 400; no handler is entered and the
    fallback of the dispatcher is not run. *)
Theorem missing_discriminator_rejected secret req payload :
  passes_signature_step secret req = true ->
  parse (body req) = Some payload ->
  payload_event payload = None \/ payload_event payload = Some VNull \/
  payload_type payload = None \/ payload_type payload = Some (VStr []) ->
  router secret req =
  (verified secret req ++ [Respond 400 (Some (js "Missing event.type"))], Ok tt) /\
  responses (trace (router secret req)) = [400] /\
  invoked (trace (router secret req)) = [] /\
  fallbacks (trace (router secret req)) = 0%nat.
Proof.
  intros H Hp Hbad.
  assert (Ht : truthy (payload_type payload) = false).
  { unfold payload_type.
    destruct Hbad as [-> | [-> | [Hn | Hn]]]; try reflexivity;
      fold (payload_type payload); rewrite Hn; reflexivity. }
  rewrite (router_passed secret req H), (falsy_type _ _ Hp Ht).
  cbn [trace outcome fst snd].
  unfold verified; destruct (truthy_str secret); repeat split.
Qed.

(** C2, as the code has it. When the configured secret is absent or empty,
    the route skips the signature step: it is steps 2 and 3 alone, so the
    verifier is not called, no request is answered 401, and the signature
    header has no influence on what the route does. *)
Theorem unset_secret_skips_verification secret req :
  truthy_str secret = false ->
  router secret req = steps_2_3 (body req) /\
  verifications (trace (router secret req)) = [] /\
  ~ In 401 (responses (trace (router secret req))) /\
  forall header,
    router secret {| signature := header; body := body req |} = router secret req.
Proof.
  intros Hs. rewrite (router_bypass secret req Hs).
  destruct (steps_2_3_reads (body req)) as [Hv Hr].
  split; [reflexivity | split; [exact Hv | split]].
  - destruct Hr as [-> | ->]; simpl; intros [Hc | []]; discriminate.
  - intros header. now rewrite (router_bypass secret _ Hs).
Qed.

(** C3, as the code has it. A request whose signature header is absent (or
    empty) is never handed to the verifier; when a secret is configured it
    is answered 401 after a warning, and no handler is entered. *)
Theorem missing_header_rejected secret req :
  truthy_str (signature req) = false ->
  verifications (trace (router secret req)) = [] /\
  (truthy_str secret = true ->
   router secret req =
   ([Console Warn MissingSignatureHeader [];
     Respond 401 (Some (js "Missing signature"))], Ok tt) /\
   responses (trace (router secret req)) = [401] /\
   invoked (trace (router secret req)) = []).
Proof.
  intros Hh. destruct (truthy_str secret) eqn:Hs.
  - rewrite (router_missing secret req Hs Hh). repeat split.
  - rewrite (router_bypass secret req Hs).
    split; [apply steps_2_3_reads | discriminate].
Qed.

End RouteProperties.

(** The end-to-end scenarios of the specification. *)
Example scenario_accepted :
  scenario_router (Some (js "s3cret")) (signed (js "s3cret") (nth_body 0)) =
  ([Verify (expected_header (nth_body 0) (js "s3cret"));
    Respond 200 None;
    Invoke OnUserCreate
      (obj [field "type" (str "user.create");
            field "id" (str "e1");
            field "user" (obj [field "id" (str "u1");
                               field "email" (str "a@b.com")])]);
    Console Log NewUser [Some (str "a@b.com"); Some (str "u1")]],
   Ok tt).
Proof. vm_compute. reflexivity. Qed.

Example scenario_bad_signature :
  scenario_router (Some (js "s3cret"))
    {| signature := Some (js "sha256=deadbeef"); body := Buf (nth_body 0) |} =
  ([Verify (js "sha256=deadbeef"); Console Warn SignatureFailed [];
    Respond 401 (Some (js "Invalid signature"))],
   Ok tt).
Proof. vm_compute. reflexivity. Qed.

Example scenario_not_json :
  scenario_router (Some (js "s3cret"))
    (signed (js "s3cret") (ascii_bytes "not valid json")) =
  ([Verify (expected_header (ascii_bytes "not valid json") (js "s3cret"));
    Respond 400 (Some (js "Invalid JSON body"))],
   Ok tt).
Proof. vm_compute. reflexivity. Qed.

(** SHA-256 of [abc] (FIPS 180-4) and test case 2 of RFC 4231. *)
Example sha256_abc :
  Hex.encode (Sha256.hash (ascii_bytes "abc")) =
  js "ba7816bf8f01cfea414140de5dae2223b00361a396177a9cb410ff61f20015ad".
Proof. vm_compute. reflexivity. Qed.

Example hmac_sha256_rfc4231 :
  Hex.encode (Hmac.sha256 (ascii_bytes "Jefe")
                (ascii_bytes "what do ya want for nothing?")) =
  js "5bdcc146bf60754e6a042426089575c75a003f089d2739839dec58b964ec3843".
Proof. vm_compute. reflexivity. Qed.

(** A handler that fails: [onUserCreate] on an event without [user]. *)
Example onUserCreate_throws :
  dispatchEvent (event_of "user.create" []) =
  ([Invoke OnUserCreate (event_of "user.create" [])], Throw TypeError).
Proof. vm_compute. reflexivity. Qed.

(** Outside the interface [WebhookEvent]: a discriminator that is an object
    with an own [toString] cannot be written into the log line, neither by
    the fallback nor by the [catch] of the route, which then throws after
    the 200. *)
Example object_discriminator_escapes :
  scenario_router None (unsigned (nth_body 4)) =
  ([Respond 200 None], Throw TypeError).
Proof. vm_compute. reflexivity. Qed.

(** ** The claims at the scenarios *)

(** With the secret unset, a request whose signature header no secret could
    have produced is not answered 401: it is acknowledged, and
    [onUserCreate] runs. *)
Lemma forged_signature_accepted :
  ~ (responses (trace (scenario_router None forged)) = [401] /\
     invoked (trace (scenario_router None forged)) = []).
Proof. intros [Hr _]; vm_compute in Hr; discriminate. Qed.

Lemma response_contract_witness :
  (responses (trace (scenario_router (Some (js "s3cret")) forged)) = [401] /\
   invoked (trace (scenario_router (Some (js "s3cret")) forged)) = []) /\
  (responses (trace (scenario_router (Some (js "s3cret"))
                       (signed (js "s3cret") (ascii_bytes "not valid json")))) = [400] /\
   invoked (trace (scenario_router (Some (js "s3cret"))
                     (signed (js "s3cret") (ascii_bytes "not valid json")))) = []) /\
  responses (trace (scenario_router None forged)) = [200].
Proof.
  split; [| split].
  - apply (response_contract ascii_toString scenario_parse (Some (js "s3cret")) forged).
    + reflexivity.
    + right. vm_compute. discriminate.
  - apply (response_contract ascii_toString scenario_parse (Some (js "s3cret"))
             (signed (js "s3cret") (ascii_bytes "not valid json"))).
    + right. split; vm_compute; reflexivity.
    + left; vm_compute; reflexivity.
  - apply (proj2 (response_contract ascii_toString scenario_parse None forged))
      with (payload := payload_of 0).
    + left; reflexivity.
    + vm_compute; reflexivity.
    + vm_compute; reflexivity.
Defined.

Lemma acknowledged_before_dispatch_witness :
  exists event pre post,
    payload_event (payload_of 0) = Some event /\
    trace (scenario_router (Some (js "s3cret")) (signed (js "s3cret") (nth_body 0)))
    = pre ++ Respond 200 None :: post /\
    invoked pre = [] /\ responses pre = [] /\
    post = trace (dispatch_guarded event) /\ responses post = [].
Proof.
  apply (acknowledged_before_dispatch ascii_toString scenario_parse
           (Some (js "s3cret")) (signed (js "s3cret") (nth_body 0)) (payload_of 0));
    vm_compute; reflexivity.
Defined.

Lemma handler_failure_contained_witness :
  outcome (dispatchEvent event_without_user) = Throw TypeError /\
  outcome (scenario_router (Some (js "s3cret")) (signed (js "s3cret") (nth_body 1)))
  = Ok tt /\
  responses (trace (scenario_router (Some (js "s3cret"))
                      (signed (js "s3cret") (nth_body 1)))) = [200] /\
  exists before,
    trace (scenario_router (Some (js "s3cret")) (signed (js "s3cret") (nth_body 1)))
    = before ++ [Console Error (HandlerError TypeError)
                   [discriminator event_without_user]].
Proof.
  assert (Hthrow : outcome (dispatchEvent event_without_user) = Throw TypeError)
    by (vm_compute; reflexivity).
  destruct (handler_failure_contained ascii_toString scenario_parse
              (Some (js "s3cret")) (signed (js "s3cret") (nth_body 1))
              (payload_of 1) event_without_user (js "user.create"))
    as (Hok & Hresp & Hlog); try (vm_compute; reflexivity).
  repeat split; try assumption. exact (Hlog TypeError Hthrow).
Defined.

Lemma missing_discriminator_rejected_witness :
  responses (trace (scenario_router None (unsigned (nth_body 3)))) = [400] /\
  invoked (trace (scenario_router None (unsigned (nth_body 3)))) = [] /\
  fallbacks (trace (scenario_router None (unsigned (nth_body 3)))) = 0%nat.
Proof.
  apply (missing_discriminator_rejected ascii_toString scenario_parse None
           (unsigned (nth_body 3)) (payload_of 3)); try (vm_compute; reflexivity).
  right; right; right; vm_compute; reflexivity.
Defined.

(** With the secret unset, a request that carries no signature at all is
    acknowledged and dispatched, and nothing is logged about the bypass. *)
Lemma unset_secret_fails_open :
  ~ fails_closed_or_announces (scenario_router None (unsigned (nth_body 0))).
Proof.
  intros [[Hr _] | Hw]; [apply Hr | apply Hw]; vm_compute; reflexivity.
Qed.

Lemma unset_secret_skips_verification_witness :
  verifications (trace (scenario_router None (unsigned (nth_body 0)))) = [] /\
  scenario_router None forged = scenario_router None (unsigned (nth_body 0)).
Proof.
  destruct (unset_secret_skips_verification ascii_toString scenario_parse None
              (unsigned (nth_body 0))) as (_ & Hv & _ & Hh); [reflexivity |].
  split; [exact Hv | exact (Hh (Some (js "sha256=deadbeef")))].
Defined.

(** With the secret unset, a request without the signature header is not
    answered 401: it is acknowledged, and [onUserDelete] runs. *)
Lemma missing_header_accepted :
  ~ (responses (trace (scenario_router None (unsigned (nth_body 2)))) = [401] /\
     invoked (trace (scenario_router None (unsigned (nth_body 2)))) = []).
Proof. intros [Hr _]; vm_compute in Hr; discriminate. Qed.

Lemma missing_header_rejected_witness :
  scenario_router (Some (js "s3cret")) (unsigned (nth_body 2)) =
  ([Console Warn MissingSignatureHeader [];
    Respond 401 (Some (js "Missing signature"))], Ok tt).
Proof.
  apply (missing_header_rejected ascii_toString scenario_parse
           (Some (js "s3cret")) (unsigned (nth_body 2))); reflexivity.
Defined.

(** ** Further properties of the signature verifier *)

Lemma str_eqb_eq (a : jsstring) : forall b, str_eqb a b = true <-> a = b.
Proof.
  induction a as [| x a IH]; intros [| y b]; simpl; split; try discriminate; auto.
  - intros H. apply andb_prop in H as [Hx Hab].
    apply N.eqb_eq in Hx. apply IH in Hab. now subst.
  - intros H. injection H as -> ->. rewrite N.eqb_refl. now apply IH.
Qed.

(** The first byte that [Buffer.from] writes for a code unit outside ASCII
    has its high bit set. *)
Lemma high_bit_byte (k x : N) :
  N.testbit k 7 = true -> 128 <= Byte.to_N (byte_of_N (N.lor k x)).
Proof.
  intros Hk. unfold byte_of_N.
  assert (Hlt : N.lor k x mod 256 < 256) by (apply N.mod_lt; lia).
  destruct (Byte.of_N (N.lor k x mod 256)) eqn:E.
  - apply Byte.to_of_N in E. rewrite E.
    destruct (N.lt_ge_cases (N.lor k x mod 256) 128) as [Hsmall | Hbig]; [| exact Hbig].
    exfalso.
    assert (Hbit : N.testbit (N.lor k x mod 256) 7 = true).
    { change 256 with (2 ^ 8). rewrite N.mod_pow2_bits_low by lia.
      rewrite N.lor_spec, Hk. reflexivity. }
    destruct (N.eq_dec (N.lor k x mod 256) 0) as [Hz | Hnz].
    + rewrite Hz in Hbit. discriminate.
    + rewrite N.bits_above_log2 in Hbit; [discriminate |].
      apply N.log2_lt_pow2; [lia | exact Hsmall].
  - apply Byte.of_N_None_iff in E. lia.
Qed.

Lemma encode_code_point_high (c : N) :
  128 <= c ->
  exists b rest, Utf8.encode_code_point c = b :: rest /\ 128 <= Byte.to_N b.
Proof.
  intros Hc. unfold Utf8.encode_code_point.
  rewrite (proj2 (N.ltb_ge _ _) Hc).
  destruct (c <? 0x800); [| destruct (c <? 0x10000)];
    eexists; eexists; (split; [reflexivity | apply high_bit_byte; reflexivity]).
Qed.

Lemma encode_non_ascii (u : N) (rest : jsstring) :
  128 <= u ->
  exists b bytes, Utf8.encode (u :: rest) = b :: bytes /\ 128 <= Byte.to_N b.
Proof.
  intros Hu. cbn [Utf8.encode].
  destruct (Utf8.is_high_surrogate u).
  - destruct rest as [| lo rest'].
    + exists xef, [xbf; xbd]. split; [reflexivity | vm_compute; discriminate].
    + destruct (Utf8.is_low_surrogate lo).
      * destruct (encode_code_point_high (0x10000 + (u - 0xD800) * 0x400 + (lo - 0xDC00)))
          as (b & bs & -> & Hb); [lia |].
        exists b, (bs ++ Utf8.encode rest'). split; [reflexivity | exact Hb].
      * exists xef, ([xbf; xbd] ++ Utf8.encode (lo :: rest')).
        split; [reflexivity | vm_compute; discriminate].
  - destruct (Utf8.is_low_surrogate u).
    + exists xef, ([xbf; xbd] ++ Utf8.encode rest).
      split; [reflexivity | vm_compute; discriminate].
    + destruct (encode_code_point_high u Hu) as (b & bs & -> & Hb).
      exists b, (bs ++ Utf8.encode rest). split; [reflexivity | exact Hb].
Qed.

(** Only an ASCII string has the bytes of an ASCII string. *)
Lemma Buffer_from_ascii_only (t : jsstring) :
  is_ascii t -> forall s, Buffer_from s = Buffer_from t -> s = t.
Proof.
  unfold Buffer_from. induction 1 as [| v t Hv Ht IH]; intros [| u s] H.
  - reflexivity.
  - exfalso. destruct (N.lt_ge_cases u 128) as [Hu | Hu].
    + destruct (ascii_not_surrogate u Hu) as [Hhi Hlo].
      cbn [Utf8.encode] in H. rewrite Hhi, Hlo in H.
      unfold Utf8.encode_code_point in H.
      rewrite (proj2 (N.ltb_lt _ _) Hu) in H. discriminate.
    + destruct (encode_non_ascii u s Hu) as (b & bs & E & _).
      rewrite E in H. discriminate.
  - exfalso. rewrite (encode_ascii (v :: t)) in H by (constructor; assumption).
    discriminate.
  - rewrite (encode_ascii (v :: t)) in H by (constructor; assumption).
    cbn [map] in H.
    destruct (N.lt_ge_cases u 128) as [Hu | Hu].
    + destruct (ascii_not_surrogate u Hu) as [Hhi Hlo].
      cbn [Utf8.encode] in H. rewrite Hhi, Hlo in H.
      unfold Utf8.encode_code_point in H.
      rewrite (proj2 (N.ltb_lt _ _) Hu) in H.
      injection H as Hb Hrest.
      apply byte_of_N_inj in Hb; [| lia | lia]. subst v.
      f_equal. apply IH. now rewrite (encode_ascii t Ht).
    + destruct (encode_non_ascii u s Hu) as (b & bs & E & Hb).
      rewrite E in H. injection H as -> _.
      rewrite to_N_byte_of_N in Hb by lia. lia.
Qed.

(** On a buffer the verifier returns [true] for the expected header and
    [false] for every other string. *)
Lemma verify_buf_spec (P : buffer) (sig secret : jsstring) :
  outcome (verifyWebhookSignature (Buf P) sig secret) = Ok true <->
  sig = expected_header P secret.
Proof.
  rewrite verify_result. cbn [outcome snd]. split.
  - intros H.
    destruct (list_eq_dec Byte.byte_eq_dec (Buffer_from sig)
                (Buffer_from (expected_header P secret))) as [Heq | Hne].
    + apply Buffer_from_ascii_only in Heq; [exact Heq | apply expected_header_ascii].
    + rewrite (verify_try_differ P sig secret Hne) in H. discriminate.
  - intros ->. now rewrite verify_try_equal.
Qed.

Lemma round_length (st : list N) (kw : N * N) :
  length st = 8%nat -> length (Sha256.round st kw) = 8%nat.
Proof.
  intros H. do 9 (destruct st as [| ? st]; try discriminate). reflexivity.
Qed.

Lemma rounds_length (kws : list (N * N)) :
  forall st, length st = 8%nat -> length (fold_left Sha256.round kws st) = 8%nat.
Proof.
  induction kws as [| kw kws IH]; intros st H; simpl; [exact H |].
  apply IH, round_length, H.
Qed.

Lemma compress_length (h block : list N) :
  length h = 8%nat -> length (Sha256.compress h block) = 8%nat.
Proof.
  intros H. unfold Sha256.compress.
  rewrite length_map, length_combine, rounds_length, H by exact H. reflexivity.
Qed.

Lemma blocks_length (fuel : nat) :
  forall h bs, length h = 8%nat -> length (Sha256.blocks fuel h bs) = 8%nat.
Proof.
  induction fuel as [| fuel IH]; intros h bs H; simpl; [exact H |].
  destruct bs; [exact H |]. apply IH, compress_length, H.
Qed.

Lemma word_bytes_total (ws : list N) :
  length (flat_map Sha256.word_bytes ws) = (4 * length ws)%nat.
Proof.
  induction ws as [| w ws IH]; [reflexivity |].
  cbn [flat_map]. rewrite length_app, IH. cbn [Sha256.word_bytes length]. lia.
Qed.

(** A SHA-256 digest, and so an HMAC-SHA256, has 32 bytes. *)
Lemma hash_length (msg : buffer) : length (Sha256.hash msg) = 32%nat.
Proof.
  unfold Sha256.hash. rewrite length_map, word_bytes_total, blocks_length; reflexivity.
Qed.

Lemma hex_length (bs : buffer) : length (Hex.encode bs) = (2 * length bs)%nat.
Proof.
  induction bs as [| b bs IH]; [reflexivity |].
  cbn [Hex.encode length]. rewrite length_app, IH. cbn [Hex.of_byte length]. lia.
Qed.

Lemma expected_header_length (P : buffer) (secret : jsstring) :
  length (expected_header P secret) = 71%nat /\
  length (Buffer_from (expected_header P secret)) = 71%nat.
Proof.
  assert (H : length (expected_header P secret) = 71%nat).
  { unfold expected_header, Hmac.sha256.
    rewrite length_app, hex_length, hash_length. reflexivity. }
  split; [exact H |].
  unfold Buffer_from. rewrite (encode_ascii _ (expected_header_ascii P secret)).
  now rewrite length_map.
Qed.

Lemma verifyWebhookSignature_result_bool (rawBody : reqbody) (sig secret : jsstring) :
  exists b : bool, outcome (verifyWebhookSignature rawBody sig secret) = Ok b.
Proof. rewrite verify_result. cbn [outcome snd]. eexists; reflexivity. Qed.

(** X1. On a body that is a buffer, [verifyWebhookSignature] returns [true]
    exactly when the header is, code unit for code unit, [sha256=] followed
    by the lowercase hexadecimal HMAC-SHA256 of the body under the secret;
    no other string, ASCII or not, is accepted. *)
Theorem verify_accepts_exactly (P : buffer) (sig secret : jsstring) :
  (outcome (verifyWebhookSignature (Buf P) sig secret) = Ok true <->
   sig = expected_header P secret) /\
  (outcome (verifyWebhookSignature (Buf P) sig secret) = Ok false <->
   sig <> expected_header P secret).
Proof.
  pose proof (verify_buf_spec P sig secret) as Hs.
  split; [exact Hs |].
  destruct (verifyWebhookSignature_result_bool (Buf P) sig secret) as [[|] Hb];
    rewrite Hb in *; split; intros H; try discriminate; try reflexivity.
  - exfalso. apply H. now apply Hs.
  - intros Heq. apply Hs in Heq. discriminate.
Qed.

(** X2. The header the verifier expects always has 71 bytes ([sha256=] and
    64 hexadecimal digits), whatever the payload and the secret, and every
    header whose UTF-8 encoding has another length is refused, on any body. *)
Theorem header_length_71 (rawBody : reqbody) (sig secret : jsstring) :
  (forall P, length (Buffer_from (expected_header P secret)) = 71%nat) /\
  (length (Buffer_from sig) <> 71%nat ->
   outcome (verifyWebhookSignature rawBody sig secret) = Ok false).
Proof.
  split; [intros P; apply expected_header_length |].
  intros Hlen. rewrite verify_result. cbn [outcome snd].
  destruct rawBody as [P | | text]; [| reflexivity | reflexivity].
  rewrite verify_try_differ; [reflexivity |].
  intros Heq. apply Hlen. rewrite Heq. apply expected_header_length.
Qed.

Lemma header_length_71_witness :
  outcome (verifyWebhookSignature (Buf (nth_body 0)) (js "sha256=deadbeef") (js "s3cret"))
  = Ok false.
Proof.
  apply (header_length_71 (Buf (nth_body 0)) (js "sha256=deadbeef") (js "s3cret")).
  vm_compute; discriminate.
Defined.

Lemma expected_header_inj (P P' : buffer) (secret : jsstring) :
  expected_header P secret = expected_header P' secret <->
  Hmac.sha256 (Buffer_from secret) P = Hmac.sha256 (Buffer_from secret) P'.
Proof.
  unfold expected_header. split.
  - intros H. now apply app_inv_head, hex_inj in H.
  - intros ->. reflexivity.
Qed.

(** X3. A header computed for the payload [P] is accepted on another
    payload [P'] exactly when the two payloads have the same HMAC-SHA256
    under the secret: a payload changed in transit passes only on a digest
    collision. *)
Theorem tampered_payload_rejected (P P' : buffer) (secret : jsstring) :
  outcome (verifyWebhookSignature (Buf P') (expected_header P secret) secret) = Ok true <->
  Hmac.sha256 (Buffer_from secret) P = Hmac.sha256 (Buffer_from secret) P'.
Proof.
  rewrite verify_buf_spec. apply expected_header_inj.
Qed.

(** ** Further properties of the event router *)

Lemma route_string (v : option value) (h : handler) :
  route v = Some h -> exists s, v = Some (VStr s).
Proof.
  destruct v as [[]|]; try discriminate. eauto.
Qed.

Lemma handler_eq_dec (h h' : handler) : {h = h'} + {h <> h'}.
Proof. decide equality. Defined.

(** The [switch] of [dispatchEvent], read backwards. *)
Lemma route_cases (s : jsstring) (h : handler) :
  route (Some (VStr s)) = Some h ->
  (h = OnUserCreate /\ s = js "user.create") \/
  (h = OnUserUpdate /\ s = js "user.update") \/
  (h = OnUserDelete /\ (s = js "user.delete" \/ s = js "user.deactivate")) \/
  (h = OnLoginSuccess /\ s = js "user.login.success") \/
  (h = OnLoginFailed /\ s = js "user.login.failed") \/
  (h = OnRegistrationCreate /\ s = js "user.registration.create") \/
  (h = OnRefreshTokenRevoke /\ s = js "jwt.refresh-token.revoke") \/
  (h = OnPasswordBreach /\ s = js "user.password.breach") \/
  (h = OnPasswordReset /\ s = js "user.password.reset.success").
Proof.
  unfold route.
  repeat match goal with
         | |- context [str_eqb s ?lit] =>
             let E := fresh "E" in
             destruct (str_eqb s lit) eqn:E;
             [apply str_eqb_eq in E; intros H; injection H as <-; tauto |]
         end.
  discriminate.
Qed.

(** X4. The [switch] of [dispatchEvent] has one alias: ["user.delete"] and
    ["user.deactivate"] both reach [onUserDelete], and nothing else does.
    Two different discriminators reach the same handler only there; and a
    discriminator that is not a string reaches no handler. *)
Theorem route_alias (v w : option value) (h : handler) :
  (route v = Some OnUserDelete <->
   v = Some (VStr (js "user.delete")) \/ v = Some (VStr (js "user.deactivate"))) /\
  (route v = Some h -> route w = Some h -> v = w \/ h = OnUserDelete) /\
  (route v = Some h -> exists s, v = Some (VStr s)).
Proof.
  split; [| split].
  - split.
    + intros Hv. destruct (route_string v _ Hv) as [s ->].
      apply route_cases in Hv.
      repeat (destruct Hv as [[Hh Hs] | Hv]; try discriminate).
      * destruct Hs as [-> | ->]; auto.
      * destruct Hv as [Hh _]; discriminate.
    + intros [-> | ->]; reflexivity.
  - intros Hv Hw.
    destruct (route_string v h Hv) as [s ->].
    destruct (route_string w h Hw) as [t ->].
    apply route_cases in Hv. apply route_cases in Hw.
    destruct (handler_eq_dec h OnUserDelete) as [-> | Hne]; [now right | left].
    f_equal; f_equal.
    repeat (destruct Hv as [[-> Hs] | Hv]; [| ]); try destruct Hv as [-> Hs];
      try contradiction;
      repeat (destruct Hw as [[Hh Ht] | Hw]; try discriminate);
      try (destruct Hw as [Hh Ht]; try discriminate); congruence.
  - apply route_string.
Qed.

Lemma route_alias_witness :
  route (Some (VStr (js "user.deactivate"))) = Some OnUserDelete /\
  (Some (VStr (js "user.delete")) = Some (VStr (js "user.deactivate")) \/
   OnUserDelete = OnUserDelete).
Proof.
  destruct (route_alias (Some (VStr (js "user.delete")))
              (Some (VStr (js "user.deactivate"))) OnUserDelete)
    as (_ & Hw & _).
  destruct (route_alias (Some (VStr (js "user.deactivate"))) None OnUserDelete)
    as ((_ & Hd) & _).
  split; [apply Hd; right; reflexivity | apply Hw; reflexivity].
Defined.

Lemma bind_ok {A B} (m : M A) (f : A -> M B) (b : B) :
  outcome (bind m f) = Ok b ->
  exists a, outcome m = Ok a /\ outcome (f a) = Ok b.
Proof.
  rewrite outcome_bind. destruct (outcome m) as [a | e]; [eauto | discriminate].
Qed.

(** A property read succeeds on everything but [undefined] and [null]. *)
Lemma get_ok (o : option value) (k : jsstring) (v : option value) :
  outcome (get o k) = Ok v ->
  (exists x, o = Some x /\ x <> VNull) /\ v = opt_get o k.
Proof.
  destruct o as [[]|]; simpl; intros H; try discriminate;
    injection H as <-; (split; [eexists; split; [reflexivity | discriminate] | reflexivity]).
Qed.

Lemma join_ok (roles : option value) :
  outcome (join roles) = Ok tt -> exists items, roles = Some (VArr items).
Proof.
  destruct roles as [[]|]; simpl; try discriminate. eauto.
Qed.

(** X5. Every handler except [onLoginFailed] and [onRefreshTokenRevoke]
    reads a property of [event.user]: on an event whose [user] is missing or
    [null] it throws a [TypeError] before it logs anything. *)
Theorem handler_needs_user (h : handler) (props : list (jsstring * value)) :
  reads_user h = true ->
  own (js "user") props = None \/ own (js "user") props = Some VNull ->
  call h (VObj props) = ([Invoke h (VObj props)], Throw TypeError).
Proof.
  intros Hh Hu.
  destruct h; try discriminate;
    cbv beta iota delta
      [call onUserCreate onUserDelete onUserUpdate onLoginSuccess
       onRegistrationCreate onPasswordBreach onPasswordReset];
    unfold emit; rewrite bind_value;
    change (get (Some (VObj props)) (js "user")) with (ret (own (js "user") props));
    rewrite !bind_ret; destruct Hu as [-> | ->]; reflexivity.
Qed.

Lemma handler_needs_user_witness :
  call OnPasswordReset (event_of "user.password.reset.success" []) =
  ([Invoke OnPasswordReset (event_of "user.password.reset.success" [])],
   Throw TypeError).
Proof.
  apply (handler_needs_user OnPasswordReset); [reflexivity | left; reflexivity].
Defined.

(** X6. When [onRegistrationCreate] returns normally, the event had a
    [user] and a [registration] that are neither missing nor [null], and
    [registration.roles] was an array: on anything else the handler
    throws. *)
Theorem registration_needs_roles (props : list (jsstring * value)) :
  outcome (onRegistrationCreate (VObj props)) = Ok tt ->
  (exists u, own (js "user") props = Some u /\ u <> VNull) /\
  (exists r, own (js "registration") props = Some r /\ r <> VNull) /\
  (exists items,
      opt_get (own (js "registration") props) (js "roles") = Some (VArr items)).
Proof.
  unfold onRegistrationCreate. rewrite outcome_emit_bind. intros H.
  apply bind_ok in H as (user & Huser & H).
  apply bind_ok in H as (reg & Hreg & H).
  apply bind_ok in H as (id & Hid & H).
  apply bind_ok in H as (app & Happ & H).
  apply bind_ok in H as (roles & Hroles & H).
  apply bind_ok in H as ([] & Hjoin & _).
  apply get_ok in Huser as [_ ->]. apply get_ok in Hreg as [_ ->].
  apply get_ok in Hid as [Hu _]. apply get_ok in Happ as [Hr _].
  apply get_ok in Hroles as [_ ->]. apply join_ok in Hjoin.
  simpl opt_get in *. auto.
Qed.

Lemma registration_needs_roles_witness :
  exists items,
    opt_get (own (js "registration")
               [field "type" (str "user.registration.create");
                field "id" (str "e1");
                field "createInstant" (VNum 1710000000000%float);
                field "user" (obj [field "id" (str "u1")]);
                field "registration"
                  (obj [field "applicationId" (str "app");
                        field "roles" (VArr [str "user"; str "admin"])])])
      (js "roles") = Some (VArr items).
Proof.
  apply (registration_needs_roles
           [field "type" (str "user.registration.create");
            field "id" (str "e1");
            field "createInstant" (VNum 1710000000000%float);
            field "user" (obj [field "id" (str "u1")]);
            field "registration"
              (obj [field "applicationId" (str "app");
                    field "roles" (VArr [str "user"; str "admin"])])]).
  vm_compute; reflexivity.
Defined.

(** ** Further properties of the route *)

Lemma invoked_console l m args : invoked (trace (console l m args)) = [].
Proof.
  unfold console, template. destruct (forallb stringifies_opt args); reflexivity.
Qed.

Lemma invoked_dispatchEvent props :
  invoked (trace (dispatchEvent (VObj props))) =
  match route (own (js "type") props) with
  | Some h => [h]
  | None => []
  end.
Proof.
  destruct (route (own (js "type") props)) as [h |] eqn:Hr.
  - rewrite (dispatchEvent_routed props h Hr). apply invoked_handler.
  - rewrite (dispatchEvent_unrouted props Hr). apply invoked_console.
Qed.

Lemma invoked_dispatch_guarded props :
  invoked (trace (dispatch_guarded (VObj props))) =
  invoked (trace (dispatchEvent (VObj props))).
Proof.
  unfold dispatch_guarded. rewrite trace_try_catch, invoked_app.
  destruct (outcome (dispatchEvent (VObj props))) as [| err]; [apply app_nil_r |].
  change (get (Some (VObj props)) (js "type")) with (ret (own (js "type") props)).
  rewrite bind_ret, invoked_console. apply app_nil_r.
Qed.

Lemma responses_respond code error (t : list obs) :
  responses (Respond code error :: t) = code :: responses t.
Proof. reflexivity. Qed.

Lemma invoked_respond code error (t : list obs) :
  invoked (Respond code error :: t) = invoked t.
Proof. reflexivity. Qed.

Section RouteInvariants.

Variable Buffer_toString : buffer -> jsstring.
Variable JSON_parse : jsstring -> option value.

#[local] Abbreviation the_steps := (parse_and_dispatch Buffer_toString JSON_parse).
#[local] Abbreviation the_router := (fusionAuthWebhookRouter Buffer_toString JSON_parse).

(** X7. Every request is answered exactly once, with 200, 400 or 401,
    whatever the body, the header, the configuration and the handler do.
    Unless the answer is 200 the route returns normally and enters no
    handler; and no request enters more than one handler. *)
Theorem one_response secret req :
  exists code,
    responses (trace (the_router secret req)) = [code] /\
    (code = 200 \/ code = 400 \/ code = 401) /\
    (code <> 200 ->
     invoked (trace (the_router secret req)) = [] /\
     outcome (the_router secret req) = Ok tt) /\
    (length (invoked (trace (the_router secret req))) <= 1)%nat.
Proof.
  destruct (passes_signature_step secret req) eqn:Hp.
  - rewrite (router_passed Buffer_toString JSON_parse secret req Hp).
    destruct (verified_reads secret req) as [Hr Hi].
    cbn [trace outcome fst snd]. rewrite responses_app, invoked_app, Hr, Hi.
    destruct (steps_2_3_cases Buffer_toString JSON_parse (body req))
      as [[error ->] | [props ->]].
    + exists 400. cbn. repeat split; auto.
    + exists 200. rewrite acknowledge_trace.
      destruct (calm_reads _ (calm_dispatch_guarded (VObj props))) as [Hd _].
      rewrite responses_respond, invoked_respond, Hd.
      rewrite invoked_dispatch_guarded, invoked_dispatchEvent. cbn [app].
      repeat split; auto; try contradiction.
      destruct (route (own (js "type") props)); simpl; lia.
  - exists 401.
    destruct (router_rejected Buffer_toString JSON_parse secret req Hp) as [-> | ->];
      cbn; repeat split; auto.
Qed.

(** X8. With a secret configured, a request whose body was read passes the
    signature step exactly when its header is the expected one, and is
    answered 401 exactly when it is not: no other header, and no missing
    header, gets a request to the parser. *)
Theorem signature_step_exact (secret : jsstring) req (b : buffer) :
  secret <> [] ->
  body req = Buf b ->
  (passes_signature_step (Some secret) req = true <->
   signature req = Some (expected_header b secret)) /\
  (responses (trace (the_router (Some secret) req)) = [401] <->
   signature req <> Some (expected_header b secret)).
Proof.
  intros Hs Hb.
  assert (Hset : truthy_str (Some secret) = true).
  { unfold truthy_str; simpl. destruct (str_eqb secret []) eqn:E; [| reflexivity].
    apply str_eqb_eq in E. contradiction. }
  assert (Hpass : passes_signature_step (Some secret) req = true <->
                  signature req = Some (expected_header b secret)).
  { unfold passes_signature_step. rewrite Hset, Hb. cbn [negb orb text].
    destruct (signature req) as [sig |]; cbn [text].
    - pose proof (verify_buf_spec b sig secret) as Hv.
      destruct (verifyWebhookSignature_result_bool (Buf b) sig secret) as [ok Hok].
      rewrite Hok in *. split.
      + intros H. apply andb_prop in H as [_ H].
        destruct ok; [| discriminate]. f_equal. now apply Hv.
      + intros H. injection H as ->.
        assert (ok = true).
        { destruct ok; [reflexivity |]. assert (Ok false = Ok true) by now apply Hv.
          discriminate. }
        subst ok. reflexivity.
    - split; discriminate. }
  split; [exact Hpass |].
  destruct (passes_signature_step (Some secret) req) eqn:Hp.
  - rewrite (router_passed Buffer_toString JSON_parse _ req Hp).
    cbn [trace fst]. unfold verified. rewrite Hset.
    change (responses ([Verify (text (signature req))] ++ trace (the_steps (body req))))
      with (responses (trace (the_steps (body req)))).
    destruct (steps_2_3_reads Buffer_toString JSON_parse (body req)) as [_ [-> | ->]];
      (split; [discriminate | intros H; exfalso; apply H, Hpass; reflexivity]).
  - split.
    + intros _ H. apply Hpass in H. discriminate.
    + intros _.
      destruct (router_rejected Buffer_toString JSON_parse _ req Hp) as [-> | ->];
        reflexivity.
Qed.

End RouteInvariants.

(** X9. A request that the signature step rejects is answered without its
    body being decoded or parsed: the run is the same whatever
    [buf.toString] and [JSON.parse] would do. *)
Theorem rejected_before_parsing
    (toString toString' : buffer -> jsstring)
    (parse parse' : jsstring -> option value) secret req :
  passes_signature_step secret req = false ->
  fusionAuthWebhookRouter toString parse secret req =
  fusionAuthWebhookRouter toString' parse' secret req.
Proof.
  unfold passes_signature_step. intros H.
  destruct (truthy_str secret) eqn:Hs; [| discriminate].
  destruct (truthy_str (signature req)) eqn:Hh; cbn [negb orb andb] in H.
  - rewrite (router_checked toString parse secret req Hs Hh).
    rewrite (router_checked toString' parse' secret req Hs Hh).
    destruct (outcome (verifyWebhookSignature (body req) (text (signature req))
                         (text secret))) as [[|] |];
      [discriminate | reflexivity | reflexivity].
  - rewrite (router_missing toString parse secret req Hs Hh).
    now rewrite (router_missing toString' parse' secret req Hs Hh).
Qed.

Lemma signature_step_exact_witness :
  passes_signature_step (Some (js "s3cret")) (signed (js "s3cret") (nth_body 0)) = true /\
  responses (trace (scenario_router (Some (js "s3cret")) forged)) = [401].
Proof.
  split.
  - apply (signature_step_exact ascii_toString scenario_parse (js "s3cret")
             (signed (js "s3cret") (nth_body 0)) (nth_body 0));
      [discriminate | reflexivity | reflexivity].
  - apply (signature_step_exact ascii_toString scenario_parse (js "s3cret")
             forged (nth_body 0)); [discriminate | reflexivity |].
    vm_compute; discriminate.
Defined.

Lemma rejected_before_parsing_witness :
  scenario_router (Some (js "s3cret")) forged =
  fusionAuthWebhookRouter (fun _ => []) (fun _ => Some VNull) (Some (js "s3cret")) forged.
Proof.
  apply (rejected_before_parsing ascii_toString (fun _ => []) scenario_parse
           (fun _ => Some VNull) (Some (js "s3cret")) forged).
  vm_compute; reflexivity.
Defined.

(** ** The verifier and the route of the guide *)

Lemma skill_verify_cases (body : jsstring) (signature secret : option jsstring) :
  Skill.verifyWebhookSignature body signature secret =
  match secret, signature with
  | Some k, Some s =>
      timingSafeEqual (Buffer_from s)
        (Buffer_from (expected_header (Buffer_from body) k))
  | _, _ => throw TypeError
  end.
Proof.
  unfold Skill.verifyWebhookSignature.
  destruct secret as [k |]; [| reflexivity].
  cbn [Skill.createHmac_key]. rewrite bind_ret.
  destruct signature as [s |]; [| reflexivity].
  cbn [Skill.Buffer_from_arg]. rewrite bind_ret. reflexivity.
Qed.

Lemma timingSafeEqual_true (a b : buffer) (t : list obs) :
  timingSafeEqual a b = (t, Ok true) -> t = [] /\ a = b.
Proof.
  unfold timingSafeEqual.
  destruct (Nat.eqb_spec (length a) (length b)) as [Hlen | Hlen]; [| discriminate].
  intros H. injection H as <- H. split; [reflexivity |].
  apply N.eqb_eq, memcmp_zero in H; [apply H | exact Hlen].
Qed.

Lemma asset_via_timingSafeEqual (P : buffer) (sig secret : jsstring) :
  outcome (verifyWebhookSignature (Buf P) sig secret) =
  Ok match outcome (timingSafeEqual (Buffer_from sig)
                      (Buffer_from (expected_header P secret))) with
     | Ok ok => ok
     | Throw _ => false
     end.
Proof.
  rewrite verify_result, verify_try_buf. cbn [outcome snd].
  destruct (Nat.eqb_spec (length (Buffer_from sig))
              (length (Buffer_from (expected_header P secret)))) as [Hlen | Hlen];
    cbn [negb]; [reflexivity |].
  now rewrite (timingSafeEqual_throws _ _ Hlen).
Qed.

(** X10. The verifier shown in the guide has neither the length test nor
    the [try] of the asset.  On a header of 71 bytes it returns what the
    asset returns on the UTF-8 bytes of the body; on a header of any other
    length it throws a [RangeError] where the asset returns [false]; and on
    a missing header or secret it throws a [TypeError]. *)
Theorem skill_verifier_throws (body sig secret : jsstring) :
  (length (Buffer_from sig) = 71%nat ->
   outcome (Skill.verifyWebhookSignature body (Some sig) (Some secret)) =
   outcome (verifyWebhookSignature (Buf (Buffer_from body)) sig secret)) /\
  (length (Buffer_from sig) <> 71%nat ->
   outcome (Skill.verifyWebhookSignature body (Some sig) (Some secret)) = Throw RangeError /\
   outcome (verifyWebhookSignature (Buf (Buffer_from body)) sig secret) = Ok false) /\
  outcome (Skill.verifyWebhookSignature body None (Some secret)) = Throw TypeError /\
  outcome (Skill.verifyWebhookSignature body (Some sig) None) = Throw TypeError.
Proof.
  destruct (expected_header_length (Buffer_from body) secret) as [_ H71].
  rewrite !skill_verify_cases, asset_via_timingSafeEqual.
  split; [| split; [| split; reflexivity]].
  - intros Hlen. unfold timingSafeEqual. rewrite Hlen, H71. reflexivity.
  - intros Hlen. rewrite timingSafeEqual_throws by (rewrite H71; exact Hlen).
    split; reflexivity.
Qed.

Lemma skill_verifier_throws_witness :
  outcome (Skill.verifyWebhookSignature (js "{}")
             (Some (expected_header (ascii_bytes "{}") (js "s3cret")))
             (Some (js "s3cret")))
  = outcome (verifyWebhookSignature (Buf (Buffer_from (js "{}")))
               (expected_header (ascii_bytes "{}") (js "s3cret")) (js "s3cret")) /\
  outcome (Skill.verifyWebhookSignature (js "{}") (Some (js "sha256=deadbeef"))
             (Some (js "s3cret"))) = Throw RangeError.
Proof.
  split.
  - apply (skill_verifier_throws (js "{}")
             (expected_header (ascii_bytes "{}") (js "s3cret")) (js "s3cret")).
    apply expected_header_length.
  - apply (skill_verifier_throws (js "{}") (js "sha256=deadbeef") (js "s3cret")).
    vm_compute; discriminate.
Defined.

(** X11. The route of the guide fails closed.  It answers 200 only when
    both the secret and the header are set, the header is exactly the one
    expected for the UTF-8 bytes of the decoded body, and the body parses;
    with the secret or the header missing it throws a [TypeError] and
    answers nothing. *)
Theorem skill_route_fails_closed
    (toString : buffer -> jsstring) (parse : jsstring -> option value)
    (secret signature : option jsstring) (body : buffer) :
  (In 200 (responses (fst (Skill.webhook_route toString parse secret signature body))) ->
   exists k s,
     secret = Some k /\ signature = Some s /\
     s = expected_header (Buffer_from (toString body)) k /\
     parse (toString body) <> None) /\
  (secret = None \/ signature = None ->
   Skill.webhook_route toString parse secret signature body
   = ([], Some (Skill.Native TypeError))).
Proof.
  unfold Skill.webhook_route. rewrite skill_verify_cases. split.
  - destruct secret as [k |]; [| intros []].
    destruct signature as [s |]; [| intros []].
    destruct (timingSafeEqual _ _) as [t [[|] | e]] eqn:E.
    + apply timingSafeEqual_true in E as [-> E].
      apply Buffer_from_ascii_only in E; [| apply expected_header_ascii].
      destruct (parse (toString body)) eqn:Hp; [| intros []].
      intros _. exists k, s. repeat split; auto. discriminate.
    + unfold timingSafeEqual in E. destruct (_ =? _)%nat; [| discriminate].
      injection E as <- _. cbn. intros [H | []]. discriminate.
    + unfold timingSafeEqual in E. destruct (_ =? _)%nat; [discriminate |].
      injection E as <- _. intros [].
  - intros [-> | ->]; [reflexivity |]. destruct secret; reflexivity.
Qed.

Lemma skill_route_fails_closed_witness :
  (exists k s,
      Some (js "s3cret") = Some k /\
      Some (expected_header (nth_body 0) (js "s3cret")) = Some s /\
      s = expected_header (Buffer_from (ascii_toString (nth_body 0))) k /\
      scenario_parse (ascii_toString (nth_body 0)) <> None) /\
  Skill.webhook_route ascii_toString scenario_parse None
    (Some (js "sha256=deadbeef")) (nth_body 0)
  = ([], Some (Skill.Native TypeError)).
Proof.
  split.
  - apply (skill_route_fails_closed ascii_toString scenario_parse
             (Some (js "s3cret")) (Some (expected_header (nth_body 0) (js "s3cret")))
             (nth_body 0)).
    vm_compute. left; reflexivity.
  - apply (skill_route_fails_closed ascii_toString scenario_parse None
             (Some (js "sha256=deadbeef")) (nth_body 0)).
    left; reflexivity.
Defined.

(** X12. When [req.body] is not a buffer, because [express.json()] ran
    before the route or [express.raw()] read no body, a configured secret
    makes the route answer 401 whatever the header is (the signature never
    matches), and no handler is entered.  Without a secret the route parses
    what [toString] gives: a body without [toString] is answered 400, and
    an object or array is treated exactly like a buffer that decodes to its
    text, so it can be accepted. *)
Theorem unread_body_rejected
    (toString : buffer -> jsstring) (parse : jsstring -> option value)
    secret req :
  (forall bytes, body req <> Buf bytes) ->
  (truthy_str secret = true ->
   responses (trace (fusionAuthWebhookRouter toString parse secret req)) = [401] /\
   invoked (trace (fusionAuthWebhookRouter toString parse secret req)) = [] /\
   outcome (fusionAuthWebhookRouter toString parse secret req) = Ok tt) /\
  (truthy_str secret = false ->
   body req = NotBuffer ->
   responses (trace (fusionAuthWebhookRouter toString parse secret req)) = [400] /\
   invoked (trace (fusionAuthWebhookRouter toString parse secret req)) = []) /\
  (truthy_str secret = false ->
   forall text bytes,
     body req = Other text ->
     toString bytes = text ->
     fusionAuthWebhookRouter toString parse secret req
     = fusionAuthWebhookRouter toString parse secret
         {| signature := signature req; body := Buf bytes |}).
Proof.
  intros Hb. split; [| split].
  - intros Hs.
    assert (Hv : outcome (verifyWebhookSignature (body req) (text (signature req))
                            (text secret)) = Ok false).
    { rewrite verify_result. cbn [outcome snd].
      destruct (body req) as [bytes | | t] eqn:E; [| reflexivity | reflexivity].
      exfalso. now apply (Hb bytes). }
    destruct (truthy_str (signature req)) eqn:Hh.
    + rewrite (router_checked toString parse secret req Hs Hh), Hv. repeat split.
    + rewrite (router_missing toString parse secret req Hs Hh). repeat split.
  - intros Hs Hn. rewrite (router_bypass toString parse secret req Hs), Hn.
    rewrite unparsable_body by reflexivity. split; reflexivity.
  - intros Hs t bytes Ht Hd.
    rewrite !(router_bypass toString parse secret _ Hs). cbn [body].
    rewrite Ht. unfold parse_and_dispatch, parse_body. now rewrite Hd.
Qed.

Lemma unread_body_rejected_witness :
  responses (trace (scenario_router (Some (js "s3cret"))
                      {| signature := Some (js "sha256=deadbeef"); body := NotBuffer |}))
  = [401] /\
  scenario_router None
    {| signature := None; body := Other (ascii_toString (nth_body 0)) |}
  = scenario_router None (unsigned (nth_body 0)).
Proof.
  split.
  - apply (unread_body_rejected ascii_toString scenario_parse (Some (js "s3cret"))
             {| signature := Some (js "sha256=deadbeef"); body := NotBuffer |}).
    + intros bytes; discriminate.
    + reflexivity.
  - apply (proj2 (proj2 (unread_body_rejected ascii_toString scenario_parse None
                           {| signature := None;
                              body := Other (ascii_toString (nth_body 0)) |}
                           ltac:(intros bytes; discriminate)))
             eq_refl (ascii_toString (nth_body 0)) (nth_body 0));
      reflexivity.
Defined.

(** An array left by [express.json()] whose one element is the text of an
    event stringifies to that text: without a secret the route accepts it. *)
Example stringified_body_accepted :
  scenario_router None
    {| signature := None; body := Other (ascii_toString (nth_body 0)) |}
  = ([Respond 200 None;
      Invoke OnUserCreate
        (obj [field "type" (str "user.create");
              field "id" (str "e1");
              field "user" (obj [field "id" (str "u1");
                                 field "email" (str "a@b.com")])]);
      Console Log NewUser [Some (str "a@b.com"); Some (str "u1")]],
     Ok tt).
Proof. vm_compute. reflexivity. Qed.

(** ** Snippets of the Open Graph skill *)

(** X13. The truncation shown for Satori never returns more than 60 code
    units: a text of up to 60 units comes back unchanged, a longer one as
    its first 57 units followed by the ellipsis, 58 units in all;
    truncating twice is truncating once. *)
Theorem truncated_bound (text : jsstring) :
  ((length text <= 60)%nat -> OgImage.truncated text = text) /\
  ((60 < length text)%nat ->
   OgImage.truncated text = firstn 57 text ++ [OgImage.ellipsis] /\
   length (OgImage.truncated text) = 58%nat) /\
  (length (OgImage.truncated text) <= 60)%nat /\
  OgImage.truncated (OgImage.truncated text) = OgImage.truncated text.
Proof.
  assert (Hshort : (length text <= 60)%nat -> OgImage.truncated text = text).
  { intros H. unfold OgImage.truncated. now rewrite (proj2 (Nat.ltb_ge _ _) H). }
  assert (Hlong : (60 < length text)%nat ->
                  OgImage.truncated text = firstn 57 text ++ [OgImage.ellipsis] /\
                  length (OgImage.truncated text) = 58%nat).
  { intros H. unfold OgImage.truncated. rewrite (proj2 (Nat.ltb_lt _ _) H).
    split; [reflexivity |].
    rewrite length_app, length_firstn. cbn [length]. lia. }
  assert (Hle : (length (OgImage.truncated text) <= 60)%nat).
  { destruct (Nat.le_gt_cases (length text) 60) as [H | H].
    - now rewrite (Hshort H).
    - destruct (Hlong H) as [_ ->]. lia. }
  split; [exact Hshort | split; [exact Hlong | split; [exact Hle |]]].
  unfold OgImage.truncated at 1.
  now rewrite (proj2 (Nat.ltb_ge _ _) Hle).
Qed.

Lemma truncated_bound_witness :
  OgImage.truncated (js "Short title") = js "Short title" /\
  length (OgImage.truncated (repeat 97 61)) = 58%nat.
Proof.
  split.
  - apply (proj1 (truncated_bound (js "Short title"))). simpl. lia.
  - apply (proj1 (proj2 (truncated_bound (repeat 97 61)))). simpl. lia.
Defined.

Lemma startsWith_app (prefix rest : jsstring) :
  OgImage.startsWith (prefix ++ rest) prefix = true.
Proof.
  unfold OgImage.startsWith.
  rewrite firstn_app, Nat.sub_diag, firstn_all, firstn_O, app_nil_r.
  now apply str_eqb_eq.
Qed.

(** X14. [getSiteUrl] prefers [x-forwarded-host]: when that header is
    present and not empty, neither [Host] nor the configured site URL
    matters, the result is the scheme, [://] and that host, and the scheme
    is [http] exactly when the host starts with [localhost].  When the
    header is present but empty, [Host] is not consulted at all. *)
Theorem getSiteUrl_forwarded_host
    (forwarded : jsstring) (host host' url url' : option jsstring) :
  (forwarded <> [] ->
   OgImage.getSiteUrl (Some forwarded) host url
   = OgImage.getSiteUrl (Some forwarded) host' url' /\
   OgImage.startsWith (OgImage.getSiteUrl (Some forwarded) host url) (js "http://")
   = OgImage.startsWith forwarded (js "localhost") /\
   (OgImage.startsWith forwarded (js "localhost") = false ->
    OgImage.getSiteUrl (Some forwarded) host url = js "https://" ++ forwarded)) /\
  OgImage.getSiteUrl (Some []) host url = OgImage.getSiteUrl (Some []) host' url.
Proof.
  split; [| reflexivity].
  intros Hne.
  assert (Ht : truthy_str (Some forwarded) = true).
  { unfold truthy_str; simpl. destruct (str_eqb forwarded []) eqn:E; [| reflexivity].
    apply str_eqb_eq in E. contradiction. }
  unfold OgImage.getSiteUrl. rewrite Ht. cbn [text].
  split; [reflexivity | split].
  - destruct (OgImage.startsWith forwarded (js "localhost")).
    + change (js "http" ++ js "://" ++ forwarded) with (js "http://" ++ forwarded).
      apply startsWith_app.
    + reflexivity.
  - intros ->. reflexivity.
Qed.

Lemma getSiteUrl_forwarded_host_witness :
  OgImage.getSiteUrl (Some (js "example.cl")) (Some (js "internal:3000")) None
  = js "https://example.cl".
Proof.
  apply (getSiteUrl_forwarded_host (js "example.cl") (Some (js "internal:3000"))
           None None None); [discriminate | reflexivity].
Defined.

Lemma signature_passes_expected (secret : jsstring) (b : buffer) :
  passes_signature_step (Some secret) (signed secret b) = true.
Proof.
  unfold passes_signature_step, signed. cbn [signature body text].
  assert (Hv : outcome (verifyWebhookSignature (Buf b) (expected_header b secret) secret)
               = Ok true) by now apply verify_buf_spec.
  rewrite Hv. apply orb_true_r.
Qed.

(** ** The route, end to end *)

(** X15. A request signed under the configured secret whose body parses to
    an event with a discriminator is answered 200 and enters the handler
    the [switch] gives for the discriminator, and no other; on a
    discriminator without a [case] it enters none. *)
Theorem signed_request_dispatched
    (toString : buffer -> jsstring) (parse : jsstring -> option value)
    (secret : jsstring) (b : buffer) (payload : value)
    (props : list (jsstring * value)) :
  parse (toString b) = Some payload ->
  payload_event payload = Some (VObj props) ->
  truthy (own (js "type") props) = true ->
  responses (trace (fusionAuthWebhookRouter toString parse (Some secret)
                      (signed secret b))) = [200] /\
  invoked (trace (fusionAuthWebhookRouter toString parse (Some secret)
                    (signed secret b)))
  = match route (own (js "type") props) with
    | Some h => [h]
    | None => []
    end.
Proof.
  intros Hp He Ht.
  assert (Hpass : passes_signature_step (Some secret) (signed secret b) = true)
    by apply signature_passes_expected.
  rewrite (router_passed toString parse _ _ Hpass).
  assert (Hty : truthy (payload_type payload) = true).
  { unfold payload_type. rewrite He. exact Ht. }
  destruct (truthy_type toString parse (Buf b) payload Hp Hty) as (props' & He' & Hsteps).
  rewrite He in He'. injection He' as <-.
  cbn [body signed]. rewrite Hsteps.
  cbn [trace fst]. rewrite acknowledge_trace, responses_app, invoked_app.
  destruct (verified_reads (Some secret) (signed secret b)) as [-> ->].
  rewrite responses_respond, invoked_respond.
  destruct (calm_reads _ (calm_dispatch_guarded (VObj props))) as [-> _].
  rewrite invoked_dispatch_guarded, invoked_dispatchEvent. split; reflexivity.
Qed.

Lemma signed_request_dispatched_witness :
  responses (trace (scenario_router (Some (js "s3cret"))
                      (signed (js "s3cret") (nth_body 2)))) = [200] /\
  invoked (trace (scenario_router (Some (js "s3cret"))
                    (signed (js "s3cret") (nth_body 2)))) = [OnUserDelete].
Proof.
  apply (signed_request_dispatched ascii_toString scenario_parse (js "s3cret")
           (nth_body 2) (payload_of 2)
           [field "type" (str "user.delete"); field "id" (str "e3");
            field "user" (obj [field "id" (str "u1")])]);
    reflexivity.
Defined.

Lemma one_response_witness :
  exists code,
    responses (trace (scenario_router (Some (js "s3cret")) forged)) = [code] /\
    invoked (trace (scenario_router (Some (js "s3cret")) forged)) = [] /\
    outcome (scenario_router (Some (js "s3cret")) forged) = Ok tt.
Proof.
  destruct (one_response ascii_toString scenario_parse (Some (js "s3cret")) forged)
    as (code & Hr & _ & Hq & _).
  exists code. split; [exact Hr |]. apply Hq.
  intros ->. vm_compute in Hr. discriminate.
Defined.
